(** * auto-balloon: a memory-balloon controller for one libvirt domain

    Shallow embedding of [auto-balloon.py] and the properties of its
    statistics view ([MemoryStats]), its per-state handler registry
    ([StateHandler]) and its polling loop ([main]).

    Python integers are unbounded, so every quantity is a [Z].  Dictionaries
    are [gmap]s, the set of attribute names is a [gset].  Handler objects
    live in a heap addressed by location, because the program relies on
    object identity (one cached handler per state, mutated in place).

    Effects are threaded through a small monad [M]: a computation takes the
    interpreter's store, and gives back a value or a raised exception, the
    new store, and the events it emitted (hypervisor calls, log records,
    sleeps), in order. *)

From stdpp Require Import base gmap strings list fin_maps.
From Stdlib Require Import ZArith Lia.

Open Scope string_scope.
Open Scope Z_scope.
Open Scope list_scope.

(** ** The libvirt constants the program reads

    [virDomainState] of the libvirt API; the program names six of them. *)

Definition VIR_DOMAIN_NOSTATE     : Z := 0.
Definition VIR_DOMAIN_RUNNING     : Z := 1.
Definition VIR_DOMAIN_BLOCKED     : Z := 2.
Definition VIR_DOMAIN_PAUSED      : Z := 3.
Definition VIR_DOMAIN_SHUTDOWN    : Z := 4.
Definition VIR_DOMAIN_SHUTOFF     : Z := 5.
Definition VIR_DOMAIN_CRASHED     : Z := 6.
Definition VIR_DOMAIN_PMSUSPENDED : Z := 7.

(** ** Exceptions and results *)

Inductive exn : Type :=
| KeyError (key : Z)
| AttributeError (name : string)
| NotImplementedError
| libvirtError (msg : string).

Inductive result (A : Type) : Type :=
| Ok (a : A)
| Raise (e : exn).
Arguments Ok {A} a.
Arguments Raise {A} e.

(** What a call into libvirt gives: its value, or a [libvirtError]. *)
Inductive libvirt_result (A : Type) : Type :=
| LvOk (a : A)
| LvError (msg : string).
Arguments LvOk {A} a.
Arguments LvError {A} msg.

(** ** Helpers: [MB] and [GB] (on integers) *)

Definition MB (x : Z) : Z := x * 1024.
Definition GB (x : Z) : Z := MB x * 1024.

(** ** [MemoryStats] *)

Module MemoryStats.

Definition _attr_names : gset string :=
  {[ "actual"; "swap_in"; "swap_out"; "major_fault"; "minor_fault";
     "unused"; "available"; "usable"; "last_update"; "disk_caches";
     "hugetlb_pgalloc"; "hugetlb_pgfail"; "rss" ]}.

(** The only slot. *)
Record t : Type := __init__ { _memoryStats : gmap string Z }.

(** [d.get(key, default)] *)
Definition dict_get (d : gmap string Z) (key : string) (dflt : Z) : Z :=
  match d !! key with
  | Some v => v
  | None => dflt
  end.

Definition __getattribute__ (self : t) (name : string) : result Z :=
  if decide (name ∈ _attr_names)
  then Ok (dict_get (_memoryStats self) name 0)
  else Raise (AttributeError name).

End MemoryStats.

(** ** Command-line arguments (the [argparse] namespace) *)

Record Args : Type := mkArgs {
  connect      : string;
  logLevel     : string;
  min          : Z;
  free         : Z;
  minThreshold : Z;
  maxThreshold : Z;
  period       : Z;
  vmname       : string
}.

(** The defaults of the argument parser, for a given domain name. *)
Definition default_args (name : string) : Args :=
  {| connect := "qemu:///session"; logLevel := "INFO";
     min := GB 2; free := GB 1;
     minThreshold := MB 100; maxThreshold := MB 200;
     period := 5; vmname := name |}.

(** ** Events *)

Inductive level : Type := DEBUG | INFO | ERROR.

(** A log record keeps the logger's name, the level, the format string and
    the integer quantities (in KB) behind its arguments.  The division by
    1024 that turns them into floating-point megabytes for display, and the
    rendering to text, are not modelled. *)
Inductive event : Type :=
| Log (logger : string) (lvl : level) (fmt : string) (kb : list Z)
| LibvirtOpen (uri : string)
| ConnectionClose
| LookupByName (name : string)
| SetMemoryStatsPeriod (p : Z)
| DomState
| DomMemoryStats
| DomSetMemory (mem : Z)
| Sleep (seconds : Z).

(** ** Classes, objects and the store *)

Inductive cls : Type :=
| StateHandler
| RunningStateHandler
| NoStateStateHandler
| PausedStateHandler
| ShutdownStateHandler
| ShutoffStateHandler
| PmSuspendedStateHandler.

Definition __name__ (c : cls) : string :=
  match c with
  | StateHandler => "StateHandler"
  | RunningStateHandler => "RunningStateHandler"
  | NoStateStateHandler => "NoStateStateHandler"
  | PausedStateHandler => "PausedStateHandler"
  | ShutdownStateHandler => "ShutdownStateHandler"
  | ShutoffStateHandler => "ShutoffStateHandler"
  | PmSuspendedStateHandler => "PmSuspendedStateHandler"
  end.

(** An instance: its class and the two slots, empty until [__init__]. *)
Record instance : Type := mkInstance {
  ob_type : cls;
  _state  : option Z;
  _args   : option Args
}.

(** Locations in the heap of handler objects. *)
Abbreviation loc := nat.

(** The mutable part of the interpreter the program touches: the class
    attribute [StateHandler._handlers] (shared by every subclass) and the
    heap of handler objects. *)
Record store : Type := mkStore {
  _handlers : gmap Z loc;
  heap      : list instance
}.

Definition init_store : store := {| _handlers := ∅; heap := [] |}.

(** [__init_subclass__]: every class statement of the file passes a state,
    so the [state is None] branch is never taken. *)
Definition __init_subclass__ (c : cls) (state : Z) (reg : gmap Z cls) : gmap Z cls :=
  <[state := c]> reg.

(** [StateHandler._registry] once the module is loaded: the six class
    statements, in the order of the file. *)
Definition _registry : gmap Z cls :=
  __init_subclass__ PmSuspendedStateHandler VIR_DOMAIN_PMSUSPENDED
  (__init_subclass__ ShutoffStateHandler VIR_DOMAIN_SHUTOFF
  (__init_subclass__ ShutdownStateHandler VIR_DOMAIN_SHUTDOWN
  (__init_subclass__ PausedStateHandler VIR_DOMAIN_PAUSED
  (__init_subclass__ NoStateStateHandler VIR_DOMAIN_BLOCKED
  (__init_subclass__ RunningStateHandler VIR_DOMAIN_RUNNING ∅))))).

(** ** The monad of effects *)

Definition M (A : Type) : Type := store → result A * store * list event.

Global Instance M_ret : MRet M := λ A a st, (Ok a, st, []).

Global Instance M_bind : MBind M := λ A B f m st,
  match m st with
  | (Ok a, st1, ev1) =>
      match f a st1 with
      | (r, st2, ev2) => (r, st2, ev1 ++ ev2)
      end
  | (Raise e, st1, ev1) => (Raise e, st1, ev1)
  end.

Definition raise {A : Type} (e : exn) : M A := λ st, (Raise e, st, []).

Definition emit (ev : event) : M unit := λ st, (Ok tt, st, [ev]).

Definition get_store : M store := λ st, (Ok st, st, []).

Definition put_store (st : store) : M unit := λ _, (Ok tt, st, []).

(** [try: body  except libvirtError: handler] *)
Definition try_except_libvirtError {A : Type} (body : M A) (handler : M A) : M A :=
  λ st,
  match body st with
  | (Raise (libvirtError _), st1, ev1) =>
      match handler st1 with
      | (r, st2, ev2) => (r, st2, ev1 ++ ev2)
      end
  | other => other
  end.

Definition of_result {A : Type} (r : result A) : M A :=
  match r with
  | Ok a => mret a
  | Raise e => raise e
  end.

(** A call into libvirt: the event comes first, then the value or the error. *)
Definition libvirt_call {A : Type} (ev : event) (r : libvirt_result A) : M A :=
  emit ev ;;
  match r with
  | LvOk a => mret a
  | LvError msg => raise (libvirtError msg)
  end.

Definition result_of {A : Type} (o : result A * store * list event) : result A := o.1.1.
Definition store_of {A : Type} (o : result A * store * list event) : store := o.1.2.
Definition events_of {A : Type} (o : result A * store * list event) : list event := o.2.

(** ** The domain handle

    What the hypervisor answers to the calls made on [dom] during one
    iteration of the polling loop. *)

Record virDomain : Type := mkDomain {
  dom_state       : libvirt_result Z;
  dom_memoryStats : libvirt_result (gmap string Z);
  dom_setMemory   : Z → libvirt_result unit
}.

Definition state (dom : virDomain) : M Z :=
  libvirt_call DomState (dom_state dom).

Definition memoryStats (dom : virDomain) : M (gmap string Z) :=
  libvirt_call DomMemoryStats (dom_memoryStats dom).

Definition setMemory (dom : virDomain) (mem : Z) : M unit :=
  libvirt_call (DomSetMemory mem) (dom_setMemory dom mem).

(** ** [StateHandler] *)

(** [cls._registry[state]] *)
Definition registry_getitem (state : Z) : M cls :=
  match _registry !! state with
  | Some c => mret c
  | None => raise (KeyError state)
  end.

(** [object.__new__(cls)]: a fresh object of class [c], slots unset. *)
Definition object_new (c : cls) : M loc :=
  st ← get_store;
  let self := length (heap st) in
  put_store {| _handlers := _handlers st;
               heap := heap st ++ [mkInstance c None None] |} ;;
  mret self.

(** [cls._handlers[state] = self] *)
Definition handlers_setitem (state : Z) (self : loc) : M unit :=
  st ← get_store;
  put_store {| _handlers := <[state := self]> (_handlers st); heap := heap st |}.

Definition __new__ (state : Z) : M loc :=
  c ← registry_getitem state;
  st ← get_store;
  match _handlers st !! state with
  | Some self => mret self
  | None =>
      self ← object_new c;
      handlers_setitem state self ;;
      mret self
  end.

(** Assignment to the slots of [self]. *)
Definition set_slots (self : loc) (f : instance → instance) : M unit :=
  st ← get_store;
  put_store {| _handlers := _handlers st; heap := alter f self (heap st) |}.

Definition __init__ (self : loc) (state : Z) (args : Args) : M unit :=
  set_slots self (λ o, mkInstance (ob_type o) (Some state) (_args o)) ;;
  set_slots self (λ o, mkInstance (ob_type o) (_state o) (Some args)).

(** The call [StateHandler(state, args)]: [__new__], then, the object
    being an instance of [StateHandler], [__init__] on it. *)
Definition StateHandler_call (state : Z) (args : Args) : M loc :=
  self ← __new__ state;
  __init__ self state args ;;
  mret self.

(** [type(self)] and [self._args] *)
Definition type_of (self : loc) : M cls :=
  st ← get_store;
  match heap st !! self with
  | Some o => mret (ob_type o)
  | None => raise (AttributeError "__class__")
  end.

Definition get_args (self : loc) : M Args :=
  st ← get_store;
  match heap st !! self with
  | Some (mkInstance _ _ (Some args)) => mret args
  | _ => raise (AttributeError "_args")
  end.

Definition logger_debug (c : cls) (fmt : string) (kb : list Z) : M unit :=
  emit (Log (__name__ c) DEBUG fmt kb).

Definition logger_info (c : cls) (fmt : string) (kb : list Z) : M unit :=
  emit (Log (__name__ c) INFO fmt kb).

(** [logger.exception] logs at level ERROR. *)
Definition logger_exception (c : cls) (fmt : string) : M unit :=
  emit (Log (__name__ c) ERROR fmt []).

Definition getattr (memStats : MemoryStats.t) (name : string) : M Z :=
  of_result (MemoryStats.__getattribute__ memStats name).

Definition RunningStateHandler_handle (self : loc) (dom : virDomain) : M Z :=
  try_except_libvirtError
    (args ← get_args self;
     raw ← memoryStats dom;
     let memStats := MemoryStats.__init__ raw in
     prevMem ← getattr memStats "actual";
     actual ← getattr memStats "actual";
     usable ← getattr memStats "usable";
     let mem := actual - usable + free args in
     let mem := if mem >? min args then mem else min args in
     let delta := prevMem - mem in
     actual' ← getattr memStats "actual";
     usable' ← getattr memStats "usable";
     logger_debug RunningStateHandler
       "actual = %.2fMB,\tusable = %.2fMB,\tdelta = %+.2fMB"
       [actual'; usable'; delta] ;;
     if (delta <? - minThreshold args) || (delta >? maxThreshold args)
     then
       logger_info RunningStateHandler
         "memory resized to %.2f (%+.2fMB)" [mem; delta] ;;
       setMemory dom mem
     else mret tt)
    (logger_exception RunningStateHandler "failed to resize memory") ;;
  mret 0.

(** The handlers that only log. *)
Definition logging_handle (c : cls) (msg : string) (signal : Z) : M Z :=
  logger_debug c msg [] ;;
  mret signal.

(** [self.handle(dom)], resolved on the class of [self]. *)
Definition handle (self : loc) (dom : virDomain) : M Z :=
  c ← type_of self;
  match c with
  | StateHandler => raise NotImplementedError
  | RunningStateHandler => RunningStateHandler_handle self dom
  | NoStateStateHandler => logging_handle c "VIR_DOMAIN_NOSTATE" 0
  | PausedStateHandler => logging_handle c "VIR_DOMAIN_PAUSED" 0
  | ShutdownStateHandler => logging_handle c "VIR_DOMAIN_SHUTDOWN" 1
  | ShutoffStateHandler => logging_handle c "VIR_DOMAIN_SHUTOFF" 1
  | PmSuspendedStateHandler => logging_handle c "VIR_DOMAIN_PMSUSPENDED" 0
  end.

(** ** [main] *)

(** What the hypervisor answers during one run of the program: the three
    calls of the set-up, then one [virDomain] per iteration of the loop. *)
Record hypervisor : Type := mkHypervisor {
  hv_open                 : libvirt_result unit;
  hv_lookupByName         : libvirt_result unit;
  hv_setMemoryStatsPeriod : libvirt_result unit;
  hv_ticks                : list virDomain
}.

(** The expression [StateHandler(dom.state()[0], args).handle(dom)]. *)
Definition dispatch (args : Args) (dom : virDomain) : M Z :=
  s ← state dom;
  self ← StateHandler_call s args;
  handle self dom.

(** The [while True] loop, run against the answers of the listed
    iterations.  [Some v]: the loop returned [v].  [None]: the loop is
    still polling after the last listed iteration. *)
Fixpoint main_loop (args : Args) (ticks : list virDomain) : M (option Z) :=
  match ticks with
  | [] => mret None
  | dom :: ticks' =>
      r ← dispatch args dom;
      if r =? 0
      then emit (Sleep (period args)) ;; main_loop args ticks'
      else mret (Some 0)
  end.

(** [with connection: body]: the connection is closed when the body is
    left, by a [return] or by an exception. *)
Definition with_connection (body : M (option Z)) : M (option Z) :=
  λ st,
  match body st with
  | (Ok None, st1, ev1) => (Ok None, st1, ev1)
  | (r, st1, ev1) => (r, st1, ev1 ++ [ConnectionClose])
  end.

Definition main (args : Args) (hv : hypervisor) : M (option Z) :=
  if period args =? 0 then mret (Some 0)
  else
    libvirt_call (LibvirtOpen (connect args)) (hv_open hv) ;;
    with_connection
      (libvirt_call (LookupByName (vmname args)) (hv_lookupByName hv) ;;
       libvirt_call (SetMemoryStatsPeriod (period args))
                    (hv_setMemoryStatsPeriod hv) ;;
       main_loop args (hv_ticks hv)).

(** [exit(main(args))] in a fresh interpreter: the exit status of the
    process; an exception that reaches the top level ends it with status 1.
    [None]: the process is still running. *)
Definition exit_status (args : Args) (hv : hypervisor) : option Z :=
  match result_of (main args hv init_store) with
  | Ok (Some v) => Some v
  | Ok None => None
  | Raise _ => Some 1
  end.

(** ** The words of the specification, for comparison *)

Module Spec.

Definition target (actual usable : Z) (args : Args) : Z :=
  Z.max (actual - usable + free args) (min args).

Definition delta (actual usable : Z) (args : Args) : Z :=
  actual - target actual usable args.

Definition gate_open (delta : Z) (args : Args) : Prop :=
  delta < - minThreshold args ∨ delta > maxThreshold args.

End Spec.

(** The [setMemory] requests among some events. *)
Definition setMemory_calls (evs : list event) : list Z :=
  omap (λ ev, match ev with DomSetMemory mem => Some mem | _ => None end) evs.

(** The records logged at a level among some events. *)
Definition logged_at (lvl : level) (evs : list event) : list (string * string) :=
  omap (λ ev, match ev with
              | Log name l fmt _ =>
                  match lvl, l with
                  | DEBUG, DEBUG | INFO, INFO | ERROR, ERROR => Some (name, fmt)
                  | _, _ => None
                  end
              | _ => None
              end) evs.

(** * Definitions for the statements *)

(** What [__init__] leaves in the slots. *)
Definition initialised (s : Z) (args : Args) (o : instance) : instance :=
  mkInstance (ob_type o) (Some s) (Some args).

(** The invariant of the handler cache: every cached handler is a live
    object of the class registered for its state. *)
Definition handlers_wf (st : store) : Prop :=
  ∀ (s : Z) (self : loc), _handlers st !! s = Some self →
    ∃ o : instance, heap st !! self = Some o ∧ _registry !! s = Some (ob_type o).

(** A sequence of constructor calls, as the loop makes them over time. *)
Definition calls (l : list (Z * Args)) (st : store) : store :=
  foldl (λ st' sa, store_of (StateHandler_call sa.1 sa.2 st')) st l.

(** The gate is decidable. *)
Global Instance gate_open_dec (delta : Z) (args : Args) :
  Decision (Spec.gate_open delta args).
Proof. unfold Spec.gate_open. apply _. Defined.

(** The record left by [logger.exception] in the Running handler. *)
Definition resize_failed : event :=
  Log "RunningStateHandler" ERROR "failed to resize memory" [].

(** The events of a Running tick whose statistics are [raw], after the
    call that fetched them. *)
Definition resize_events (args : Args) (dom : virDomain) (raw : gmap string Z)
    : list event :=
  let actual := MemoryStats.dict_get raw "actual" 0 in
  let usable := MemoryStats.dict_get raw "usable" 0 in
  let mem := Spec.target actual usable args in
  let delta := Spec.delta actual usable args in
  Log "RunningStateHandler" DEBUG
      "actual = %.2fMB,\tusable = %.2fMB,\tdelta = %+.2fMB"
      [actual; usable; delta] ::
  if bool_decide (Spec.gate_open delta args)
  then
    Log "RunningStateHandler" INFO "memory resized to %.2f (%+.2fMB)" [mem; delta]
    :: DomSetMemory mem
    :: match dom_setMemory dom mem with
       | LvOk _ => []
       | LvError _ => [resize_failed]
       end
  else [].

(** The signal of each class of handler. *)
Definition signal_of (c : cls) : Z :=
  match c with
  | ShutdownStateHandler | ShutoffStateHandler => 1
  | _ => 0
  end.

(** The states whose handler lets the loop go on. *)
Definition continuing_state (s : Z) : Prop :=
  s = VIR_DOMAIN_RUNNING ∨ s = VIR_DOMAIN_BLOCKED ∨
  s = VIR_DOMAIN_PAUSED ∨ s = VIR_DOMAIN_PMSUSPENDED.

(** The domain answers the state query with a state satisfying [P]. *)
Definition reports (P : Z → Prop) (dom : virDomain) : Prop :=
  ∃ s : Z, dom_state dom = LvOk s ∧ P s.

(** The three calls before the loop succeed. *)
Definition setup_succeeds (hv : hypervisor) : Prop :=
  hv_open hv = LvOk tt ∧ hv_lookupByName hv = LvOk tt ∧
  hv_setMemoryStatsPeriod hv = LvOk tt.

(** Sample inputs. *)
Definition sample_args : Args := default_args "guest".

(** A running domain with 4096 MB allocated of which 3000 MB can be
    reclaimed; every request succeeds. *)
Definition sample_running : virDomain :=
  mkDomain (LvOk VIR_DOMAIN_RUNNING)
           (LvOk (<["actual" := MB 4096]> (<["usable" := MB 3000]> ∅)))
           (λ _, LvOk tt).

(** A running domain inside the hysteresis band: 50 MB above the target. *)
Definition sample_steady : virDomain :=
  mkDomain (LvOk VIR_DOMAIN_RUNNING)
           (LvOk (<["actual" := MB 4096]> (<["usable" := MB 1074]> ∅)))
           (λ _, LvOk tt).

(** A running domain whose statistics cannot be fetched. *)
Definition sample_stats_down : virDomain :=
  mkDomain (LvOk VIR_DOMAIN_RUNNING) (LvError "no balloon") (λ _, LvOk tt).

(** A running domain that refuses every resize. *)
Definition sample_resize_refused : virDomain :=
  mkDomain (LvOk VIR_DOMAIN_RUNNING)
           (LvOk (<["actual" := MB 4096]> (<["usable" := MB 3000]> ∅)))
           (λ _, LvError "cannot set memory").

(** A domain that only reports its state. *)
Definition sample_in_state (s : Z) : virDomain :=
  mkDomain (LvOk s) (LvOk ∅) (λ _, LvOk tt).

(** A hypervisor whose set-up succeeds, with the listed iterations. *)
Definition sample_hypervisor (ticks : list virDomain) : hypervisor :=
  mkHypervisor (LvOk tt) (LvOk tt) (LvOk tt) ticks.

(** The two ways libvirt can fail inside a Running iteration: the
    statistics cannot be fetched, *)
Definition stats_fail (dom : virDomain) : Prop :=
  ∃ msg : string, dom_memoryStats dom = LvError msg.

(** The resize is due and libvirt refuses it. *)
Definition resize_fails (args : Args) (dom : virDomain) : Prop :=
  ∃ (raw : gmap string Z) (msg : string),
    dom_memoryStats dom = LvOk raw ∧
    let actual := MemoryStats.dict_get raw "actual" 0 in
    let usable := MemoryStats.dict_get raw "usable" 0 in
    Spec.gate_open (Spec.delta actual usable args) args ∧
    dom_setMemory dom (Spec.target actual usable args) = LvError msg.

(** The states whose handler stops the loop. *)
Definition stopping_state (s : Z) : Prop :=
  s = VIR_DOMAIN_SHUTDOWN ∨ s = VIR_DOMAIN_SHUTOFF.

(** Running, Paused or PmSuspended. *)
Definition running_paused_or_suspended (s : Z) : Prop :=
  s = VIR_DOMAIN_RUNNING ∨ s = VIR_DOMAIN_PAUSED ∨ s = VIR_DOMAIN_PMSUSPENDED.

(** The default configuration with polling switched off. *)
Definition sample_disabled : Args :=
  {| connect := "qemu:///session"; logLevel := "INFO";
     min := GB 2; free := GB 1;
     minThreshold := MB 100; maxThreshold := MB 200;
     period := 0; vmname := "guest" |}.

(** The events one iteration of the loop can emit: the calls on the domain
    and the log records. *)
Definition tick_event (ev : event) : Prop :=
  match ev with
  | Log _ _ _ _ | DomState | DomMemoryStats | DomSetMemory _ => True
  | _ => False
  end.

(** The events of the loop: those of its iterations, and the sleeps. *)
Definition loop_event (ev : event) : Prop :=
  match ev with
  | Sleep _ => True
  | _ => tick_event ev
  end.

(** The calls that read or change the memory of the domain. *)
Definition memory_call (ev : event) : Prop :=
  match ev with
  | DomMemoryStats | DomSetMemory _ => True
  | _ => False
  end.

(** The durations of the sleeps among some events. *)
Definition sleeps (evs : list event) : list Z :=
  omap (λ ev, match ev with Sleep seconds => Some seconds | _ => None end) evs.

(** The cache holds one object per state and nothing else lives in the
    heap: no two states share a handler, and there are as many objects as
    cached states. *)
Definition cache_tight (st : store) : Prop :=
  (∀ (s1 s2 : Z) (self : loc),
     _handlers st !! s1 = Some self → _handlers st !! s2 = Some self → s1 = s2) ∧
  (∀ (s : Z) (self : loc), _handlers st !! s = Some self → self < length (heap st))%nat ∧
  dom (_handlers st) ⊆ dom _registry ∧
  length (heap st) = size (_handlers st).

(** The set-up fails at one of its three calls. *)
Definition setup_fails (hv : hypervisor) (msg : string) : Prop :=
  hv_open hv = LvError msg ∨
  (hv_open hv = LvOk tt ∧ hv_lookupByName hv = LvError msg) ∨
  (hv_open hv = LvOk tt ∧ hv_lookupByName hv = LvOk tt ∧
   hv_setMemoryStatsPeriod hv = LvError msg).

(** A running domain that reports no counter at all. *)
Definition sample_no_counters : virDomain :=
  mkDomain (LvOk VIR_DOMAIN_RUNNING) (LvOk ∅) (λ _, LvOk tt).

(** The running domain of [sample_running] once resized to 2120 MB, the
    guest using what it used before. *)
Definition sample_resized : virDomain :=
  mkDomain (LvOk VIR_DOMAIN_RUNNING)
           (LvOk (<["actual" := MB 2120]> (<["usable" := MB 1024]> ∅)))
           (λ _, LvOk tt).

(** A domain whose state cannot be queried. *)
Definition sample_unreachable : virDomain :=
  mkDomain (LvError "connection lost") (LvOk ∅) (λ _, LvOk tt).

(** What the [with] statement appends when the loop is left. *)
Definition close_after (r : result (option Z)) : list event :=
  match r with
  | Ok None => []
  | _ => [ConnectionClose]
  end.

(** * Properties *)

(** ** The registry *)

Lemma registry_running : _registry !! VIR_DOMAIN_RUNNING = Some RunningStateHandler.
Proof. reflexivity. Qed.

Lemma registry_blocked : _registry !! VIR_DOMAIN_BLOCKED = Some NoStateStateHandler.
Proof. reflexivity. Qed.

Lemma registry_paused : _registry !! VIR_DOMAIN_PAUSED = Some PausedStateHandler.
Proof. reflexivity. Qed.

Lemma registry_shutdown : _registry !! VIR_DOMAIN_SHUTDOWN = Some ShutdownStateHandler.
Proof. reflexivity. Qed.

Lemma registry_shutoff : _registry !! VIR_DOMAIN_SHUTOFF = Some ShutoffStateHandler.
Proof. reflexivity. Qed.

Lemma registry_pmsuspended :
  _registry !! VIR_DOMAIN_PMSUSPENDED = Some PmSuspendedStateHandler.
Proof. reflexivity. Qed.

Lemma registry_nostate : _registry !! VIR_DOMAIN_NOSTATE = None.
Proof. reflexivity. Qed.

(** The registered states and their classes, all of them. *)
Lemma registry_cases (s : Z) (c : cls) :
  _registry !! s = Some c →
  (s = VIR_DOMAIN_RUNNING ∧ c = RunningStateHandler) ∨
  (s = VIR_DOMAIN_BLOCKED ∧ c = NoStateStateHandler) ∨
  (s = VIR_DOMAIN_PAUSED ∧ c = PausedStateHandler) ∨
  (s = VIR_DOMAIN_SHUTDOWN ∧ c = ShutdownStateHandler) ∨
  (s = VIR_DOMAIN_SHUTOFF ∧ c = ShutoffStateHandler) ∨
  (s = VIR_DOMAIN_PMSUSPENDED ∧ c = PmSuspendedStateHandler).
Proof.
  unfold _registry, __init_subclass__. intros H.
  repeat (apply lookup_insert_Some in H as [[<- <-]|[_ H]]; [tauto|]).
  by rewrite lookup_empty in H.
Qed.

(** No instance of the base class is ever registered. *)
Lemma registry_not_base (s : Z) : _registry !! s ≠ Some StateHandler.
Proof.
  intros H. apply registry_cases in H.
  repeat (destruct H as [[_ H]|H]; [discriminate|]). by destruct H.
Qed.

(** ** Running a computation *)

Ltac mrun :=
  unfold mbind, M_bind, mret, M_ret, get_store, put_store, emit, raise; simpl.

Lemma bind_ok {A B : Type} (m : M A) (f : A → M B) (st st1 : store)
    (a : A) (ev1 : list event) :
  m st = (Ok a, st1, ev1) →
  (m ≫= f) st = (result_of (f a st1), store_of (f a st1), ev1 ++ events_of (f a st1)).
Proof.
  intros H. unfold mbind, M_bind. rewrite H.
  by destruct (f a st1) as [[r st2] ev2].
Qed.

Lemma bind_raise {A B : Type} (m : M A) (f : A → M B) (st st1 : store)
    (e : exn) (ev1 : list event) :
  m st = (Raise e, st1, ev1) → (m ≫= f) st = (Raise e, st1, ev1).
Proof. intros H. unfold mbind, M_bind. by rewrite H. Qed.

(** ** [__new__] *)

Lemma new_unregistered (s : Z) (st : store) :
  _registry !! s = None → __new__ s st = (Raise (KeyError s), st, []).
Proof.
  intros H. unfold __new__, registry_getitem. rewrite H. reflexivity.
Qed.

Lemma new_cached (s : Z) (c : cls) (self : loc) (st : store) :
  _registry !! s = Some c → _handlers st !! s = Some self →
  __new__ s st = (Ok self, st, []).
Proof.
  intros Hr Hh. unfold __new__, registry_getitem. rewrite Hr.
  mrun. by rewrite Hh.
Qed.

Lemma new_fresh (s : Z) (c : cls) (st : store) :
  _registry !! s = Some c → _handlers st !! s = None →
  __new__ s st =
    (Ok (length (heap st)),
     {| _handlers := <[s := length (heap st)]> (_handlers st);
        heap := heap st ++ [mkInstance c None None] |},
     []).
Proof.
  intros Hr Hh. unfold __new__, registry_getitem. rewrite Hr.
  mrun. by rewrite Hh.
Qed.

(** ** The constructor call *)

Lemma init_run (self : loc) (s : Z) (args : Args) (st : store) :
  __init__ self s args st =
    (Ok tt,
     {| _handlers := _handlers st;
        heap := alter (initialised s args) self (heap st) |},
     []).
Proof.
  unfold __init__, set_slots. mrun.
  by rewrite list_alter_alter_eq.
Qed.

Lemma call_unregistered (s : Z) (args : Args) (st : store) :
  _registry !! s = None →
  StateHandler_call s args st = (Raise (KeyError s), st, []).
Proof.
  intros H. unfold StateHandler_call.
  by rewrite (bind_raise _ _ _ _ _ _ (new_unregistered s st H)).
Qed.

Lemma call_cached (s : Z) (c : cls) (self : loc) (args : Args) (st : store) :
  _registry !! s = Some c → _handlers st !! s = Some self →
  StateHandler_call s args st =
    (Ok self,
     {| _handlers := _handlers st;
        heap := alter (initialised s args) self (heap st) |},
     []).
Proof.
  intros Hr Hh. unfold StateHandler_call.
  rewrite (bind_ok _ _ _ _ _ _ (new_cached s c self st Hr Hh)).
  rewrite (bind_ok _ _ _ _ _ _ (init_run self s args st)).
  reflexivity.
Qed.

Lemma call_fresh (s : Z) (c : cls) (args : Args) (st : store) :
  _registry !! s = Some c → _handlers st !! s = None →
  StateHandler_call s args st =
    (Ok (length (heap st)),
     {| _handlers := <[s := length (heap st)]> (_handlers st);
        heap := heap st ++ [mkInstance c (Some s) (Some args)] |},
     []).
Proof.
  intros Hr Hh. unfold StateHandler_call.
  rewrite (bind_ok _ _ _ _ _ _ (new_fresh s c st Hr Hh)).
  rewrite (bind_ok _ _ _ _ _ _ (init_run _ s args _)).
  cbn. do 2 f_equal. f_equal.
  rewrite alter_app_r_alt by lia.
  by rewrite Nat.sub_diag.
Qed.

(** ** The handler cache *)

Lemma wf_init : handlers_wf init_store.
Proof. intros s self H. cbn in H. by rewrite lookup_empty in H. Qed.

(** A call for a registered state, whatever the cache holds. *)
Lemma call_registered (s : Z) (c : cls) (args : Args) (st : store) :
  handlers_wf st → _registry !! s = Some c →
  ∃ (self : loc) (st' : store),
    StateHandler_call s args st = (Ok self, st', []) ∧
    heap st' !! self = Some (mkInstance c (Some s) (Some args)) ∧
    _handlers st' !! s = Some self ∧
    handlers_wf st'.
Proof.
  intros Hwf Hr. destruct (_handlers st !! s) as [self|] eqn:Hh.
  - destruct (Hwf s self Hh) as (o & Ho & Hc).
    assert (c = ob_type o) as -> by congruence.
    eexists _, _. split; [by apply call_cached with (ob_type o)|].
    cbn [heap _handlers]. split; [|split; [done|]].
    + by rewrite list_lookup_alter_eq, Ho.
    + intros s' self' Hh'. cbn [heap _handlers] in *.
      destruct (Hwf s' self' Hh') as (o' & Ho' & Hc').
      rewrite list_lookup_alter. case_decide as Heq.
      * subst self'. rewrite Ho'. by exists (initialised s args o').
      * by exists o'.
  - eexists _, _. split; [by apply call_fresh|].
    cbn [heap _handlers]. split; [|split].
    + by apply list_lookup_middle.
    + by rewrite lookup_insert_eq.
    + intros s' self' Hh'. cbn [heap _handlers] in *.
      apply lookup_insert_Some in Hh' as [[<- <-]|[_ Hh']].
      * eexists. split; [by apply list_lookup_middle|done].
      * destruct (Hwf s' self' Hh') as (o' & Ho' & Hc').
        exists o'. split; [|done]. by apply lookup_app_l_Some.
Qed.

Lemma call_wf (s : Z) (args : Args) (st : store) :
  handlers_wf st → handlers_wf (store_of (StateHandler_call s args st)).
Proof.
  intros Hwf. destruct (_registry !! s) as [c|] eqn:Hr.
  - destruct (call_registered s c args st Hwf Hr) as (self & st' & -> & _ & _ & H).
    exact H.
  - by rewrite call_unregistered.
Qed.

(** Once a state has its handler, every later call leaves it there. *)
Lemma call_keeps_handler (s s' : Z) (self : loc) (args : Args) (st : store) :
  _handlers st !! s = Some self →
  _handlers (store_of (StateHandler_call s' args st)) !! s = Some self.
Proof.
  intros Hh. destruct (_registry !! s') as [c|] eqn:Hr.
  - destruct (_handlers st !! s') as [self'|] eqn:Hh'.
    + by rewrite (call_cached s' c self').
    + rewrite (call_fresh s' c) by done. cbn [store_of fst snd _handlers].
      rewrite lookup_insert_ne; [done|congruence].
  - by rewrite call_unregistered.
Qed.

Lemma calls_wf (l : list (Z * Args)) (st : store) :
  handlers_wf st → handlers_wf (calls l st).
Proof.
  revert st. induction l as [|[s a] l IH]; intros st Hwf; [done|].
  cbn. apply IH. by apply call_wf.
Qed.

Lemma calls_keep_handler (l : list (Z * Args)) (s : Z) (self : loc) (st : store) :
  _handlers st !! s = Some self → _handlers (calls l st) !! s = Some self.
Proof.
  revert st. induction l as [|[s' a] l IH]; intros st Hh; [done|].
  cbn. apply IH. by apply call_keeps_handler.
Qed.

(** ** [MemoryStats] attributes *)

Lemma getattribute_defined (raw : gmap string Z) (name : string) :
  name ∈ MemoryStats._attr_names →
  MemoryStats.__getattribute__ (MemoryStats.__init__ raw) name =
    Ok (MemoryStats.dict_get raw name 0).
Proof.
  intros Hin. unfold MemoryStats.__getattribute__.
  by rewrite decide_True.
Qed.

Lemma actual_defined : "actual" ∈ MemoryStats._attr_names.
Proof. unfold MemoryStats._attr_names. set_solver. Qed.

Lemma usable_defined : "usable" ∈ MemoryStats._attr_names.
Proof. unfold MemoryStats._attr_names. set_solver. Qed.

Lemma getattr_actual (raw : gmap string Z) (st : store) :
  getattr (MemoryStats.__init__ raw) "actual" st =
    (Ok (MemoryStats.dict_get raw "actual" 0), st, []).
Proof.
  unfold getattr. by rewrite (getattribute_defined _ _ actual_defined).
Qed.

Lemma getattr_usable (raw : gmap string Z) (st : store) :
  getattr (MemoryStats.__init__ raw) "usable" st =
    (Ok (MemoryStats.dict_get raw "usable" 0), st, []).
Proof.
  unfold getattr. by rewrite (getattribute_defined _ _ usable_defined).
Qed.

(** ** The handlers *)

(** The source's conditional expression is the maximum. *)
Lemma clamp_is_max (mem floor : Z) :
  (if mem >? floor then mem else floor) = Z.max mem floor.
Proof. destruct (Z.gtb_spec mem floor); lia. Qed.

Lemma gate_test (delta : Z) (args : Args) :
  (delta <? - minThreshold args) || (delta >? maxThreshold args) =
  bool_decide (Spec.gate_open delta args).
Proof.
  unfold Spec.gate_open.
  destruct (Z.ltb_spec delta (- minThreshold args)),
           (Z.gtb_spec delta (maxThreshold args)); cbn;
    symmetry; first [apply bool_decide_eq_true | apply bool_decide_eq_false]; lia.
Qed.

Lemma type_of_run (self : loc) (o : instance) (st : store) :
  heap st !! self = Some o → type_of self st = (Ok (ob_type o), st, []).
Proof. intros H. unfold type_of. mrun. by rewrite H. Qed.

Lemma get_args_run (self : loc) (c : cls) (s : option Z) (args : Args) (st : store) :
  heap st !! self = Some (mkInstance c s (Some args)) →
  get_args self st = (Ok args, st, []).
Proof. intros H. unfold get_args. mrun. by rewrite H. Qed.

Lemma running_handle_stats_error (self : loc) (c : cls) (s : option Z)
    (args : Args) (dom : virDomain) (msg : string) (st : store) :
  heap st !! self = Some (mkInstance c s (Some args)) →
  dom_memoryStats dom = LvError msg →
  RunningStateHandler_handle self dom st =
    (Ok 0, st, [DomMemoryStats; resize_failed]).
Proof.
  intros Hself Hstats.
  unfold RunningStateHandler_handle, try_except_libvirtError.
  unfold mbind at 1. unfold M_bind at 1.
  rewrite (bind_ok _ _ _ _ _ _ (get_args_run _ _ _ _ _ Hself)).
  unfold memoryStats, libvirt_call. rewrite Hstats.
  reflexivity.
Qed.

Lemma running_handle_stats_ok (self : loc) (c : cls) (s : option Z)
    (args : Args) (dom : virDomain) (raw : gmap string Z) (st : store) :
  heap st !! self = Some (mkInstance c s (Some args)) →
  dom_memoryStats dom = LvOk raw →
  RunningStateHandler_handle self dom st =
    (Ok 0, st, DomMemoryStats :: resize_events args dom raw).
Proof.
  intros Hself Hstats.
  unfold RunningStateHandler_handle, try_except_libvirtError.
  unfold memoryStats, setMemory, libvirt_call, logger_debug, logger_info, logger_exception.
  rewrite Hstats.
  unfold mbind, M_bind, emit, mret, M_ret.
  rewrite (get_args_run _ _ _ _ _ Hself).
  rewrite !getattr_actual, !getattr_usable.
  rewrite clamp_is_max, gate_test.
  unfold resize_events, Spec.delta, Spec.target.
  destruct (bool_decide _); [|reflexivity].
  by destruct (dom_setMemory dom _).
Qed.

(** A Running handler never raises and always signals 0. *)
Lemma running_handle_continues (self : loc) (c : cls) (s : option Z)
    (args : Args) (dom : virDomain) (st : store) :
  heap st !! self = Some (mkInstance c s (Some args)) →
  ∃ evs, RunningStateHandler_handle self dom st = (Ok 0, st, evs).
Proof.
  intros Hself. destruct (dom_memoryStats dom) as [raw|msg] eqn:Hstats.
  - eexists. by eapply running_handle_stats_ok.
  - eexists. by eapply running_handle_stats_error.
Qed.

Lemma handle_signal (self : loc) (c : cls) (s : option Z) (args : Args)
    (dom : virDomain) (st : store) :
  c ≠ StateHandler →
  heap st !! self = Some (mkInstance c s (Some args)) →
  ∃ evs, handle self dom st = (Ok (signal_of c), st, evs).
Proof.
  intros Hc Hself. unfold handle.
  rewrite (bind_ok _ _ _ _ _ _ (type_of_run _ _ _ Hself)).
  cbn [ob_type]. destruct c; try done.
  - destruct (running_handle_continues _ _ _ _ dom _ Hself) as [evs ->].
    by eexists.
  - by eexists.
  - by eexists.
  - by eexists.
  - by eexists.
  - by eexists.
Qed.

(** ** One iteration of the loop *)

Lemma state_run (dom : virDomain) (s : Z) (st : store) :
  dom_state dom = LvOk s → state dom st = (Ok s, st, [DomState]).
Proof. intros H. unfold state, libvirt_call. by rewrite H. Qed.

(** The iteration for a registered state: the handler's signal comes back,
    the cache stays well formed. *)
Lemma dispatch_registered (args : Args) (dom : virDomain) (s : Z) (c : cls)
    (st : store) :
  handlers_wf st → dom_state dom = LvOk s → _registry !! s = Some c →
  ∃ (self : loc) (st' : store),
    StateHandler_call s args st = (Ok self, st', []) ∧
    handlers_wf st' ∧
    dispatch args dom st =
      (result_of (handle self dom st'), st', DomState :: events_of (handle self dom st')) ∧
    result_of (handle self dom st') = Ok (signal_of c).
Proof.
  intros Hwf Hs Hr.
  destruct (call_registered s c args st Hwf Hr) as (self & st' & Hcall & Hself & _ & Hwf').
  exists self, st'. split; [done|]. split; [done|].
  assert (c ≠ StateHandler) as Hc.
  { intros ->. by apply (registry_not_base s). }
  destruct (handle_signal self c (Some s) args dom st' Hc Hself) as [evs Hh].
  split; [|by rewrite Hh].
  unfold dispatch.
  rewrite (bind_ok _ _ _ _ _ _ (state_run _ _ _ Hs)).
  rewrite (bind_ok _ _ _ _ _ _ Hcall).
  by rewrite Hh.
Qed.

Lemma dispatch_unregistered (args : Args) (dom : virDomain) (s : Z) (st : store) :
  dom_state dom = LvOk s → _registry !! s = None →
  dispatch args dom st = (Raise (KeyError s), st, [DomState]).
Proof.
  intros Hs Hr. unfold dispatch.
  rewrite (bind_ok _ _ _ _ _ _ (state_run _ _ _ Hs)).
  by rewrite (bind_raise _ _ _ _ _ _ (call_unregistered s args st Hr)).
Qed.

(** The Running iteration in full. *)
Lemma dispatch_running (args : Args) (dom : virDomain) (st : store) :
  handlers_wf st → dom_state dom = LvOk VIR_DOMAIN_RUNNING →
  ∃ st' : store,
    handlers_wf st' ∧
    dispatch args dom st =
      (Ok 0, st',
       DomState :: DomMemoryStats ::
       match dom_memoryStats dom with
       | LvOk raw => resize_events args dom raw
       | LvError _ => [resize_failed]
       end).
Proof.
  intros Hwf Hs.
  destruct (call_registered _ _ args st Hwf registry_running)
    as (self & st' & Hcall & Hself & _ & Hwf').
  exists st'. split; [done|].
  unfold dispatch.
  rewrite (bind_ok _ _ _ _ _ _ (state_run _ _ _ Hs)).
  rewrite (bind_ok _ _ _ _ _ _ Hcall).
  unfold handle.
  rewrite (bind_ok _ _ _ _ _ _ (type_of_run _ _ _ Hself)).
  cbn [ob_type].
  destruct (dom_memoryStats dom) as [raw|msg] eqn:Hstats.
  - by rewrite (running_handle_stats_ok _ _ _ _ _ _ _ Hself Hstats).
  - by rewrite (running_handle_stats_error _ _ _ _ _ _ _ Hself Hstats).
Qed.

(** ** The loop *)

Lemma main_loop_stop (args : Args) (dom : virDomain) (ticks : list virDomain)
    (st st' : store) (r : Z) (evs : list event) :
  dispatch args dom st = (Ok r, st', evs) → r ≠ 0 →
  main_loop args (dom :: ticks) st = (Ok (Some 0), st', evs).
Proof.
  intros Hd Hr. cbn [main_loop].
  rewrite (bind_ok _ _ _ _ _ _ Hd).
  destruct (Z.eqb_spec r 0); [done|].
  cbn. by rewrite app_nil_r.
Qed.

Lemma main_loop_continue (args : Args) (dom : virDomain) (ticks : list virDomain)
    (st st' : store) (evs : list event) :
  dispatch args dom st = (Ok 0, st', evs) →
  main_loop args (dom :: ticks) st =
    (result_of (main_loop args ticks st'),
     store_of (main_loop args ticks st'),
     evs ++ Sleep (period args) :: events_of (main_loop args ticks st')).
Proof.
  intros Hd. cbn [main_loop].
  rewrite (bind_ok _ _ _ _ _ _ Hd). cbn [Z.eqb].
  unfold mbind at 1 2 3. unfold M_bind at 1 2 3. unfold emit.
  by destruct (main_loop args ticks st') as [[r st2] ev2].
Qed.

Lemma main_loop_raise (args : Args) (dom : virDomain) (ticks : list virDomain)
    (st st' : store) (e : exn) (evs : list event) :
  dispatch args dom st = (Raise e, st', evs) →
  main_loop args (dom :: ticks) st = (Raise e, st', evs).
Proof. intros Hd. cbn [main_loop]. by rewrite (bind_raise _ _ _ _ _ _ Hd). Qed.

Lemma continuing_registered (s : Z) :
  continuing_state s → ∃ c, _registry !! s = Some c ∧ signal_of c = 0.
Proof.
  intros [ -> | [ -> | [ -> | -> ] ] ]; eexists; (split; [reflexivity|reflexivity]).
Qed.

Lemma dispatch_continuing (args : Args) (dom : virDomain) (st : store) :
  handlers_wf st → reports continuing_state dom →
  ∃ (st' : store) (evs : list event),
    handlers_wf st' ∧ dispatch args dom st = (Ok 0, st', evs).
Proof.
  intros Hwf (s & Hs & Hc).
  destruct (continuing_registered s Hc) as (c & Hr & Hsig).
  destruct (dispatch_registered args dom s c st Hwf Hs Hr)
    as (self & st' & _ & Hwf' & Hd & Hres).
  exists st'. eexists. split; [done|].
  rewrite Hd, Hres, Hsig. reflexivity.
Qed.

(** Iterations that all continue are passed over. *)
Lemma main_loop_prefix (args : Args) (before rest : list virDomain) (st : store) :
  handlers_wf st → Forall (reports continuing_state) before →
  ∃ st' : store,
    handlers_wf st' ∧
    result_of (main_loop args (before ++ rest) st) =
    result_of (main_loop args rest st').
Proof.
  revert st. induction before as [|dom before IH]; intros st Hwf Hall.
  - by exists st.
  - apply Forall_cons in Hall as [Hdom Hall].
    destruct (dispatch_continuing args dom st Hwf Hdom) as (st1 & evs & Hwf1 & Hd).
    destruct (IH st1 Hwf1 Hall) as (st' & Hwf' & Heq).
    exists st'. split; [done|].
    cbn [app]. rewrite (main_loop_continue _ _ _ _ _ _ Hd).
    exact Heq.
Qed.

(** ** [main] *)

Lemma main_result (args : Args) (hv : hypervisor) (st : store) :
  period args ≠ 0 → setup_succeeds hv →
  result_of (main args hv st) = result_of (main_loop args (hv_ticks hv) st).
Proof.
  intros Hp (Ho & Hl & Hs). unfold main.
  destruct (Z.eqb_spec (period args) 0); [done|].
  unfold libvirt_call, with_connection. rewrite Ho, Hl, Hs.
  unfold mbind, M_bind, emit, mret, M_ret.
  by destruct (main_loop args (hv_ticks hv) st) as [[[[v|]|e] st2] ev2].
Qed.

Lemma exit_status_of_loop (args : Args) (hv : hypervisor) :
  period args ≠ 0 → setup_succeeds hv →
  exit_status args hv =
    match result_of (main_loop args (hv_ticks hv) init_store) with
    | Ok (Some v) => Some v
    | Ok None => None
    | Raise _ => Some 1
    end.
Proof. intros Hp Hs. unfold exit_status. by rewrite main_result. Qed.

(** * Main results *)

(** ** C1 *)

(** C1 (defect in the code).  The claim: for the NoState lifecycle state the
    dispatcher resolves a registered no-op behaviour that returns Continue,
    so the loop keeps polling.  The code registers [NoStateStateHandler],
    which logs "VIR_DOMAIN_NOSTATE", under [VIR_DOMAIN_BLOCKED]; nothing is
    registered under [VIR_DOMAIN_NOSTATE].  When the domain reports NoState
    the constructor call raises [KeyError], the loop raises it too, and the
    process ends with status 1. *)
Theorem nostate_dispatch_raises_KeyError (args : Args) (st : store)
    (stats : libvirt_result (gmap string Z)) (resize : Z → libvirt_result unit)
    (ticks : list virDomain) :
  _registry !! VIR_DOMAIN_NOSTATE = None ∧
  _registry !! VIR_DOMAIN_BLOCKED = Some NoStateStateHandler ∧
  StateHandler_call VIR_DOMAIN_NOSTATE args st =
    (Raise (KeyError VIR_DOMAIN_NOSTATE), st, []) ∧
  main_loop args (mkDomain (LvOk VIR_DOMAIN_NOSTATE) stats resize :: ticks) st =
    (Raise (KeyError VIR_DOMAIN_NOSTATE), st, [DomState]) ∧
  exit_status sample_args
    (sample_hypervisor (mkDomain (LvOk VIR_DOMAIN_NOSTATE) stats resize :: ticks)) =
    Some 1.
Proof.
  split; [reflexivity|]. split; [reflexivity|].
  split; [by apply call_unregistered|].
  assert (∀ st0, main_loop args
            (mkDomain (LvOk VIR_DOMAIN_NOSTATE) stats resize :: ticks) st0 =
          (Raise (KeyError VIR_DOMAIN_NOSTATE), st0, [DomState])) as Hloop.
  { intros st0. apply main_loop_raise. by apply dispatch_unregistered. }
  split; [apply Hloop|].
  rewrite exit_status_of_loop; [|done|done].
  cbn [hv_ticks sample_hypervisor].
  assert (main_loop sample_args
            (mkDomain (LvOk VIR_DOMAIN_NOSTATE) stats resize :: ticks) init_store =
          (Raise (KeyError VIR_DOMAIN_NOSTATE), init_store, [DomState])) as ->.
  { apply main_loop_raise. by apply dispatch_unregistered. }
  reflexivity.
Qed.

(** ** C2 *)

(** Membership in a short list of events, by cases. *)
Ltac in_events H :=
  repeat (apply elem_of_cons in H as [H|H]; [congruence|]);
  by apply elem_of_nil in H.

(** C2.  In a Running iteration, for every statistics sample and every
    configuration, the target is [actual - usable + free] clamped from below
    by [min], and delta is [actual] minus the clamped target: the debug
    record carries that delta, and the info record and the resize request,
    when there are any, carry that target.  A positive delta is a shrink
    (target below actual), a negative one a growth. *)
Theorem running_target_and_delta (args : Args) (dom : virDomain)
    (raw : gmap string Z) (st : store) :
  handlers_wf st →
  dom_state dom = LvOk VIR_DOMAIN_RUNNING →
  dom_memoryStats dom = LvOk raw →
  let actual := MemoryStats.dict_get raw "actual" 0 in
  let usable := MemoryStats.dict_get raw "usable" 0 in
  let target := Z.max (actual - usable + free args) (min args) in
  let delta := actual - target in
  (0 < delta ↔ target < actual) ∧ (delta < 0 ↔ actual < target) ∧
  ∃ rest : list event,
    events_of (dispatch args dom st) =
      DomState :: DomMemoryStats ::
      Log "RunningStateHandler" DEBUG
          "actual = %.2fMB,\tusable = %.2fMB,\tdelta = %+.2fMB"
          [actual; usable; delta] :: rest ∧
    (∀ mem : Z, mem ∈ setMemory_calls rest → mem = target) ∧
    (∀ name fmt kb, Log name INFO fmt kb ∈ rest → kb = [target; delta]).
Proof.
  intros Hwf Hs Hstats actual usable target delta.
  split; [subst delta; lia|]. split; [subst delta; lia|].
  destruct (dispatch_running args dom st Hwf Hs) as (st' & _ & ->).
  rewrite Hstats. unfold resize_events.
  fold actual usable. change (Spec.target actual usable args) with target.
  change (Spec.delta actual usable args) with delta.
  eexists. split; [reflexivity|].
  destruct (bool_decide _).
  - split.
    + intros mem H. destruct (dom_setMemory dom target); cbn in H; in_events H.
    + intros name fmt kb H.
      destruct (dom_setMemory dom target); unfold resize_failed in H; in_events H.
  - split; [intros mem H|intros name fmt kb H]; cbn in H; in_events H.
Qed.

Lemma running_target_and_delta_witness :
  (0 < MB 1976 ↔ MB 2120 < MB 4096) ∧ (MB 1976 < 0 ↔ MB 4096 < MB 2120) ∧
  ∃ rest : list event,
    events_of (dispatch sample_args sample_running init_store) =
      DomState :: DomMemoryStats ::
      Log "RunningStateHandler" DEBUG
          "actual = %.2fMB,\tusable = %.2fMB,\tdelta = %+.2fMB"
          [MB 4096; MB 3000; MB 1976] :: rest ∧
    (∀ mem : Z, mem ∈ setMemory_calls rest → mem = MB 2120) ∧
    (∀ name fmt kb, Log name INFO fmt kb ∈ rest → kb = [MB 2120; MB 1976]).
Proof.
  exact (running_target_and_delta sample_args sample_running
           (<["actual" := MB 4096]> (<["usable" := MB 3000]> ∅)) init_store
           wf_init eq_refl eq_refl).
Defined.

(** ** C3 *)

(** C3.  Hysteresis gate.  In a Running iteration whose statistics were
    fetched, a resize is requested — once, with the clamped target — if and
    only if [delta < -minThreshold] or [delta > maxThreshold]; and no request
    at all is made if and only if [-minThreshold <= delta <= maxThreshold]. *)
Theorem hysteresis_gate (args : Args) (dom : virDomain)
    (raw : gmap string Z) (st : store) :
  handlers_wf st →
  dom_state dom = LvOk VIR_DOMAIN_RUNNING →
  dom_memoryStats dom = LvOk raw →
  let actual := MemoryStats.dict_get raw "actual" 0 in
  let usable := MemoryStats.dict_get raw "usable" 0 in
  let target := Z.max (actual - usable + free args) (min args) in
  let delta := actual - target in
  (delta < - minThreshold args ∨ delta > maxThreshold args ↔
   setMemory_calls (events_of (dispatch args dom st)) = [target]) ∧
  (- minThreshold args ≤ delta ≤ maxThreshold args ↔
   setMemory_calls (events_of (dispatch args dom st)) = []).
Proof.
  intros Hwf Hs Hstats actual usable target delta.
  destruct (dispatch_running args dom st Hwf Hs) as (st' & _ & ->).
  rewrite Hstats. unfold resize_events.
  fold actual usable. change (Spec.target actual usable args) with target.
  change (Spec.delta actual usable args) with delta.
  unfold Spec.gate_open. case_bool_decide as Hgate.
  - assert (setMemory_calls
              (events_of
                 (Ok 0, st',
                  DomState :: DomMemoryStats ::
                  Log "RunningStateHandler" DEBUG
                      "actual = %.2fMB,\tusable = %.2fMB,\tdelta = %+.2fMB"
                      [actual; usable; delta] ::
                  Log "RunningStateHandler" INFO
                      "memory resized to %.2f (%+.2fMB)" [target; delta] ::
                  DomSetMemory target ::
                  match dom_setMemory dom target with
                  | LvOk _ => []
                  | LvError _ => [resize_failed]
                  end)) = [target]) as ->.
    { by destruct (dom_setMemory dom target). }
    split; split; [done|done|lia|done].
  - cbn. split; split; [done|done|done|lia].
Qed.

Lemma hysteresis_gate_witness :
  (MB 50 < - MB 100 ∨ MB 50 > MB 200 ↔
   setMemory_calls (events_of (dispatch sample_args sample_steady init_store)) =
     [MB 4046]) ∧
  (- MB 100 ≤ MB 50 ≤ MB 200 ↔
   setMemory_calls (events_of (dispatch sample_args sample_steady init_store)) = []).
Proof.
  exact (hysteresis_gate sample_args sample_steady
           (<["actual" := MB 4096]> (<["usable" := MB 1074]> ∅)) init_store
           wf_init eq_refl eq_refl).
Defined.

(** ** C4 *)

(** C4.  For every name in the set of defined attributes and every raw
    statistics mapping, reading that attribute of the [MemoryStats] built on
    the mapping gives the stored integer when the name is a key of the
    mapping and 0 when it is not; it never raises. *)
Theorem memory_stats_field_total (raw : gmap string Z) (name : string) :
  name ∈ MemoryStats._attr_names →
  MemoryStats.__getattribute__ (MemoryStats.__init__ raw) name =
    Ok (match raw !! name with Some v => v | None => 0 end).
Proof. intros Hin. by rewrite getattribute_defined. Qed.

Lemma memory_stats_field_total_witness :
  MemoryStats.__getattribute__
    (MemoryStats.__init__ (<["actual" := MB 4096]> ∅)) "usable" = Ok 0.
Proof.
  exact (memory_stats_field_total (<["actual" := MB 4096]> ∅) "usable"
           usable_defined).
Defined.

(** ** C5 *)

(** C5.  For every registered state, the constructor call gives the same
    object (the same location of the heap) each time it is made for that
    state, whatever calls for other states come in between.  The object is
    created by the first request — when the cache has no entry, it is a
    fresh location and the heap grows by one — and later requests for the
    state create nothing. *)
Theorem handler_is_singleton (s : Z) (c : cls) (args1 args2 : Args)
    (between : list (Z * Args)) (st : store) :
  _registry !! s = Some c →
  ∃ self : loc,
    result_of (StateHandler_call s args1 st) = Ok self ∧
    result_of
      (StateHandler_call s args2
         (calls between (store_of (StateHandler_call s args1 st)))) = Ok self ∧
    (_handlers st !! s = None →
     self = length (heap st) ∧
     length (heap (store_of (StateHandler_call s args1 st))) = S (length (heap st))) ∧
    length (heap (store_of
      (StateHandler_call s args2
         (calls between (store_of (StateHandler_call s args1 st)))))) =
    length (heap (calls between (store_of (StateHandler_call s args1 st)))).
Proof.
  intros Hr.
  assert (∃ self, result_of (StateHandler_call s args1 st) = Ok self ∧
                  _handlers (store_of (StateHandler_call s args1 st)) !! s = Some self ∧
                  (_handlers st !! s = None →
                   self = length (heap st) ∧
                   length (heap (store_of (StateHandler_call s args1 st))) =
                     S (length (heap st))))
    as (self & Hres & Hh & Hlazy).
  { destruct (_handlers st !! s) as [self|] eqn:Hh.
    - exists self. rewrite (call_cached s c self) by done. by repeat split.
    - exists (length (heap st)). rewrite (call_fresh s c) by done.
      cbn [result_of store_of fst snd _handlers heap].
      split; [done|]. split; [by rewrite lookup_insert_eq|].
      intros _. split; [done|]. rewrite length_app. cbn. lia. }
  exists self. split; [done|].
  pose proof (calls_keep_handler between s self _ Hh) as Hh'.
  rewrite (call_cached s c self _ _ Hr Hh').
  cbn [result_of store_of fst snd heap].
  split; [done|]. split; [done|]. by rewrite length_alter.
Qed.

Lemma handler_is_singleton_witness :
  ∃ self : loc,
    result_of (StateHandler_call VIR_DOMAIN_PAUSED sample_args init_store) = Ok self ∧
    result_of
      (StateHandler_call VIR_DOMAIN_PAUSED (default_args "other")
         (calls [(VIR_DOMAIN_RUNNING, sample_args); (VIR_DOMAIN_CRASHED, sample_args)]
            (store_of (StateHandler_call VIR_DOMAIN_PAUSED sample_args init_store))))
      = Ok self.
Proof.
  destruct (handler_is_singleton VIR_DOMAIN_PAUSED PausedStateHandler
              sample_args (default_args "other")
              [(VIR_DOMAIN_RUNNING, sample_args); (VIR_DOMAIN_CRASHED, sample_args)]
              init_store eq_refl) as (self & H1 & H2 & _).
  exact (ex_intro _ self (conj H1 H2)).
Defined.

(** ** C8 *)

(** C8.  With a poll period of 0, [main] returns 0 at once: no event is
    emitted (no session is opened, no iteration runs), the store is left as
    it was, whatever the hypervisor would have answered, and the process
    exits with status 0. *)
Theorem period_zero_exits_at_once (args : Args) (hv : hypervisor) (st : store) :
  period args = 0 →
  main args hv st = (Ok (Some 0), st, []) ∧ exit_status args hv = Some 0.
Proof.
  intros Hp. unfold exit_status, main. rewrite Hp. by split.
Qed.

Lemma period_zero_exits_at_once_witness :
  main sample_disabled (sample_hypervisor [sample_running]) init_store =
    (Ok (Some 0), init_store, []) ∧
  exit_status sample_disabled (sample_hypervisor [sample_running]) = Some 0.
Proof.
  exact (period_zero_exits_at_once sample_disabled
           (sample_hypervisor [sample_running]) init_store eq_refl).
Defined.

(** ** C9 *)

(** C9.  For every state with no registered handler, the constructor call
    raises [KeyError] and leaves the store untouched; the iteration that
    meets such a state raises it out of the loop, with nothing logged and no
    sleep; and the process that meets it after any number of continuing
    iterations ends with the non-zero status of an uncaught exception. *)
Theorem unmapped_state_raises (s : Z) (args : Args) (st : store) :
  _registry !! s = None →
  StateHandler_call s args st = (Raise (KeyError s), st, []) ∧
  (∀ dom ticks, dom_state dom = LvOk s →
     main_loop args (dom :: ticks) st = (Raise (KeyError s), st, [DomState])) ∧
  (∀ hv before dom after,
     period args ≠ 0 → setup_succeeds hv →
     hv_ticks hv = before ++ dom :: after →
     Forall (reports continuing_state) before → dom_state dom = LvOk s →
     result_of (main args hv init_store) = Raise (KeyError s) ∧
     exit_status args hv = Some 1).
Proof.
  intros Hr.
  assert (∀ st0 dom ticks, dom_state dom = LvOk s →
            main_loop args (dom :: ticks) st0 = (Raise (KeyError s), st0, [DomState]))
    as Hloop.
  { intros st0 dom ticks Hs. apply main_loop_raise. by apply dispatch_unregistered. }
  split; [by apply call_unregistered|].
  split; [intros dom ticks; by apply Hloop|].
  intros hv before dom after Hp Hsetup Hticks Hbefore Hs.
  rewrite exit_status_of_loop, main_result by done. rewrite Hticks.
  destruct (main_loop_prefix args before (dom :: after) init_store wf_init Hbefore)
    as (st' & _ & ->).
  by rewrite (Hloop st' dom after Hs).
Qed.

Lemma unmapped_state_raises_witness :
  StateHandler_call VIR_DOMAIN_CRASHED sample_args init_store =
    (Raise (KeyError VIR_DOMAIN_CRASHED), init_store, []) ∧
  exit_status sample_args
    (sample_hypervisor [sample_running; sample_in_state VIR_DOMAIN_CRASHED]) =
    Some 1.
Proof.
  destruct (unmapped_state_raises VIR_DOMAIN_CRASHED sample_args init_store eq_refl)
    as (H1 & _ & H3).
  split; [exact H1|].
  apply (H3 (sample_hypervisor [sample_running; sample_in_state VIR_DOMAIN_CRASHED])
            [sample_running] (sample_in_state VIR_DOMAIN_CRASHED) []).
  - discriminate.
  - repeat split.
  - reflexivity.
  - repeat constructor.
    exists VIR_DOMAIN_RUNNING. split; [reflexivity|]. left. reflexivity.
  - reflexivity.
Defined.

(** ** C10 *)

(** C10.  The initialiser runs at every constructor call, also when the
    object comes from the cache: after each call the object's slots hold the
    state and the arguments of that call.  Two calls for one state, with any
    calls in between, give one object whose [_args] slot holds the first
    arguments after the first call and the second arguments after the
    second. *)
Theorem singleton_slots_follow_last_call (s : Z) (c : cls) (args1 args2 : Args)
    (between : list (Z * Args)) (st : store) :
  handlers_wf st →
  _registry !! s = Some c →
  ∃ self : loc,
    result_of (StateHandler_call s args1 st) = Ok self ∧
    heap (store_of (StateHandler_call s args1 st)) !! self =
      Some (mkInstance c (Some s) (Some args1)) ∧
    result_of
      (StateHandler_call s args2
         (calls between (store_of (StateHandler_call s args1 st)))) = Ok self ∧
    heap (store_of
      (StateHandler_call s args2
         (calls between (store_of (StateHandler_call s args1 st))))) !! self =
      Some (mkInstance c (Some s) (Some args2)).
Proof.
  intros Hwf Hr.
  destruct (call_registered s c args1 st Hwf Hr)
    as (self & st1 & Hcall1 & Hself1 & Hh1 & Hwf1).
  exists self. rewrite Hcall1. cbn [result_of store_of fst snd].
  split; [done|]. split; [done|].
  pose proof (calls_wf between st1 Hwf1) as Hwf2.
  pose proof (calls_keep_handler between s self st1 Hh1) as Hh2.
  destruct (call_registered s c args2 _ Hwf2 Hr)
    as (self' & st2 & Hcall2 & Hself2 & _ & _).
  assert (self' = self) as ->.
  { pose proof (call_cached s c self args2 _ Hr Hh2) as Hc.
    rewrite Hcall2 in Hc. congruence. }
  rewrite Hcall2. by split.
Qed.

Lemma singleton_slots_follow_last_call_witness :
  ∃ self : loc,
    result_of (StateHandler_call VIR_DOMAIN_RUNNING sample_args init_store) = Ok self ∧
    heap (store_of (StateHandler_call VIR_DOMAIN_RUNNING sample_args init_store))
      !! self =
      Some (mkInstance RunningStateHandler (Some VIR_DOMAIN_RUNNING) (Some sample_args)) ∧
    result_of
      (StateHandler_call VIR_DOMAIN_RUNNING sample_disabled
         (calls [(VIR_DOMAIN_PAUSED, sample_args)]
            (store_of (StateHandler_call VIR_DOMAIN_RUNNING sample_args init_store))))
      = Ok self ∧
    heap (store_of
      (StateHandler_call VIR_DOMAIN_RUNNING sample_disabled
         (calls [(VIR_DOMAIN_PAUSED, sample_args)]
            (store_of (StateHandler_call VIR_DOMAIN_RUNNING sample_args init_store)))))
      !! self =
      Some (mkInstance RunningStateHandler (Some VIR_DOMAIN_RUNNING)
              (Some sample_disabled)).
Proof.
  exact (singleton_slots_follow_last_call VIR_DOMAIN_RUNNING RunningStateHandler
           sample_args sample_disabled [(VIR_DOMAIN_PAUSED, sample_args)]
           init_store wf_init eq_refl).
Defined.

(** * Further properties *)

(** ** One iteration, by cases *)

Lemma state_fails (dom : virDomain) (msg : string) (st : store) :
  dom_state dom = LvError msg →
  state dom st = (Raise (libvirtError msg), st, [DomState]).
Proof. intros H. unfold state, libvirt_call. by rewrite H. Qed.

Lemma dispatch_state_fails (args : Args) (dom : virDomain) (msg : string)
    (st : store) :
  dom_state dom = LvError msg →
  dispatch args dom st = (Raise (libvirtError msg), st, [DomState]).
Proof.
  intros H. unfold dispatch.
  by rewrite (bind_raise _ _ _ _ _ _ (state_fails _ _ _ H)).
Qed.

(** The iteration for a registered state other than Running: one debug
    record, and nothing else. *)
Lemma dispatch_logging (args : Args) (dom : virDomain) (s : Z) (c : cls)
    (st : store) :
  handlers_wf st → dom_state dom = LvOk s → _registry !! s = Some c →
  s ≠ VIR_DOMAIN_RUNNING →
  ∃ (st' : store) (msg : string),
    handlers_wf st' ∧
    dispatch args dom st =
      (Ok (signal_of c), st', [DomState; Log (__name__ c) DEBUG msg []]).
Proof.
  intros Hwf Hs Hr Hne.
  destruct (call_registered s c args st Hwf Hr)
    as (self & st' & Hcall & Hself & _ & Hwf').
  exists st'.
  assert (∃ msg, handle self dom st' =
                 (Ok (signal_of c), st', [Log (__name__ c) DEBUG msg []]))
    as [msg Hh].
  { unfold handle. rewrite (bind_ok _ _ _ _ _ _ (type_of_run _ _ _ Hself)).
    cbn [ob_type]. apply registry_cases in Hr.
    destruct Hr as [[-> _]|[[_ ->]|[[_ ->]|[[_ ->]|[[_ ->]|[_ ->]]]]]];
      [done|by eexists..]. }
  exists msg. split; [done|].
  unfold dispatch.
  rewrite (bind_ok _ _ _ _ _ _ (state_run _ _ _ Hs)).
  rewrite (bind_ok _ _ _ _ _ _ Hcall).
  by rewrite Hh.
Qed.

(** Every iteration falls under one of four cases. *)
Lemma dispatch_cases (args : Args) (dom : virDomain) (st : store) :
  handlers_wf st →
  (∃ msg, dom_state dom = LvError msg ∧
          dispatch args dom st = (Raise (libvirtError msg), st, [DomState])) ∨
  (∃ s, dom_state dom = LvOk s ∧ _registry !! s = None ∧
        dispatch args dom st = (Raise (KeyError s), st, [DomState])) ∨
  (∃ st', dom_state dom = LvOk VIR_DOMAIN_RUNNING ∧ handlers_wf st' ∧
          dispatch args dom st =
            (Ok 0, st',
             DomState :: DomMemoryStats ::
             match dom_memoryStats dom with
             | LvOk raw => resize_events args dom raw
             | LvError _ => [resize_failed]
             end)) ∨
  (∃ s c st' msg,
     dom_state dom = LvOk s ∧ s ≠ VIR_DOMAIN_RUNNING ∧ _registry !! s = Some c ∧
     handlers_wf st' ∧
     dispatch args dom st =
       (Ok (signal_of c), st', [DomState; Log (__name__ c) DEBUG msg []])).
Proof.
  intros Hwf. destruct (dom_state dom) as [s|msg] eqn:Hs.
  - destruct (_registry !! s) as [c|] eqn:Hr.
    + destruct (decide (s = VIR_DOMAIN_RUNNING)) as [->|Hne].
      * right. right. left.
        destruct (dispatch_running args dom st Hwf Hs) as (st' & Hwf' & Hd).
        by exists st'.
      * right. right. right.
        destruct (dispatch_logging args dom s c st Hwf Hs Hr Hne)
          as (st' & msg & Hwf' & Hd).
        by exists s, c, st', msg.
    + right. left. exists s. split; [done|]. split; [done|].
      by apply dispatch_unregistered.
  - left. exists msg. split; [done|]. by apply dispatch_state_fails.
Qed.

Lemma resize_events_tick (args : Args) (dom : virDomain) (raw : gmap string Z) :
  Forall tick_event (resize_events args dom raw).
Proof.
  unfold resize_events. destruct (bool_decide _); [|by repeat constructor].
  destruct (dom_setMemory dom _); by repeat constructor.
Qed.

Lemma dispatch_wf (args : Args) (dom : virDomain) (st : store) :
  handlers_wf st → handlers_wf (store_of (dispatch args dom st)).
Proof.
  intros Hwf.
  destruct (dispatch_cases args dom st Hwf)
    as [(msg & _ & ->)|[(s & _ & _ & ->)|[(st' & _ & Hwf' & ->)|
        (s & c & st' & msg & _ & _ & _ & Hwf' & ->)]]]; done.
Qed.

Lemma dispatch_events_tick (args : Args) (dom : virDomain) (st : store) :
  handlers_wf st → Forall tick_event (events_of (dispatch args dom st)).
Proof.
  intros Hwf.
  destruct (dispatch_cases args dom st Hwf)
    as [(msg & _ & ->)|[(s & _ & _ & ->)|[(st' & _ & Hwf' & ->)|
        (s & c & st' & msg & _ & _ & _ & Hwf' & ->)]]];
    cbn [events_of snd]; try by repeat constructor.
  do 2 (constructor; [done|]).
  destruct (dom_memoryStats dom); [apply resize_events_tick|by repeat constructor].
Qed.

(** ** The loop, by cases on its first iteration *)

Lemma main_loop_cases (args : Args) (dom : virDomain) (ticks : list virDomain)
    (st : store) :
  (∃ st' evs, dispatch args dom st = (Ok 0, st', evs) ∧
     main_loop args (dom :: ticks) st =
       (result_of (main_loop args ticks st'),
        store_of (main_loop args ticks st'),
        evs ++ Sleep (period args) :: events_of (main_loop args ticks st'))) ∨
  (∃ r st' evs, dispatch args dom st = (Ok r, st', evs) ∧ r ≠ 0 ∧
     main_loop args (dom :: ticks) st = (Ok (Some 0), st', evs)) ∨
  (∃ e st' evs, dispatch args dom st = (Raise e, st', evs) ∧
     main_loop args (dom :: ticks) st = (Raise e, st', evs)).
Proof.
  destruct (dispatch args dom st) as [[[r|e] st'] evs] eqn:Hd.
  - destruct (decide (r = 0)) as [->|Hr].
    + left. exists st', evs. split; [done|]. by apply main_loop_continue.
    + right. left. exists r, st', evs. split; [done|]. split; [done|].
      by apply main_loop_stop with r.
  - right. right. exists e, st', evs. split; [done|]. by apply main_loop_raise.
Qed.

Lemma main_loop_wf (args : Args) (ticks : list virDomain) (st : store) :
  handlers_wf st → handlers_wf (store_of (main_loop args ticks st)).
Proof.
  revert st. induction ticks as [|dom ticks IH]; intros st Hwf; [done|].
  pose proof (dispatch_wf args dom st Hwf) as Hwf'.
  destruct (main_loop_cases args dom ticks st)
    as [(st' & evs & Hd & ->)|[(r & st' & evs & Hd & _ & ->)|
        (e & st' & evs & Hd & ->)]];
    rewrite Hd in Hwf'; cbn [store_of fst snd] in *; [by apply IH|done|done].
Qed.

Lemma main_loop_events (args : Args) (ticks : list virDomain) (st : store) :
  handlers_wf st → Forall loop_event (events_of (main_loop args ticks st)).
Proof.
  revert st. induction ticks as [|dom ticks IH]; intros st Hwf; [by constructor|].
  pose proof (dispatch_wf args dom st Hwf) as Hwf'.
  pose proof (dispatch_events_tick args dom st Hwf) as Hev.
  assert (∀ evs, Forall tick_event evs → Forall loop_event evs) as Hweak.
  { intros evs H. eapply Forall_impl; [exact H|]. by intros []. }
  destruct (main_loop_cases args dom ticks st)
    as [(st' & evs & Hd & ->)|[(r & st' & evs & Hd & _ & ->)|
        (e & st' & evs & Hd & ->)]];
    rewrite Hd in Hwf', Hev; cbn [store_of events_of fst snd] in *;
    [|by apply Hweak..].
  apply Forall_app. split; [by apply Hweak|].
  constructor; [done|]. by apply IH.
Qed.

Lemma main_loop_returns_zero (args : Args) (ticks : list virDomain) (st : store)
    (v : Z) :
  result_of (main_loop args ticks st) = Ok (Some v) → v = 0.
Proof.
  revert st. induction ticks as [|dom ticks IH]; intros st; [done|].
  destruct (main_loop_cases args dom ticks st)
    as [(st' & evs & Hd & ->)|[(r & st' & evs & Hd & _ & ->)|
        (e & st' & evs & Hd & ->)]]; cbn [result_of fst snd].
  - apply IH.
  - congruence.
  - done.
Qed.

(** ** [main], in full *)

Lemma main_run (args : Args) (hv : hypervisor) (st : store) :
  period args ≠ 0 → setup_succeeds hv →
  main args hv st =
    (result_of (main_loop args (hv_ticks hv) st),
     store_of (main_loop args (hv_ticks hv) st),
     LibvirtOpen (connect args) :: LookupByName (vmname args) ::
     SetMemoryStatsPeriod (period args) ::
     events_of (main_loop args (hv_ticks hv) st) ++
     close_after (result_of (main_loop args (hv_ticks hv) st))).
Proof.
  intros Hp (Ho & Hl & Hs). unfold main.
  destruct (Z.eqb_spec (period args) 0); [done|].
  unfold libvirt_call, with_connection. rewrite Ho, Hl, Hs.
  unfold mbind, M_bind, emit, mret, M_ret.
  destruct (main_loop args (hv_ticks hv) st) as [[[[v|]|e] st2] ev2];
    cbn; by rewrite ?app_nil_r.
Qed.

Lemma main_setup_fails (args : Args) (hv : hypervisor) (msg : string) (st : store) :
  period args ≠ 0 → setup_fails hv msg →
  main args hv st =
    (Raise (libvirtError msg), st,
     match hv_open hv, hv_lookupByName hv with
     | LvError _, _ => [LibvirtOpen (connect args)]
     | LvOk _, LvError _ =>
         [LibvirtOpen (connect args); LookupByName (vmname args); ConnectionClose]
     | LvOk _, LvOk _ =>
         [LibvirtOpen (connect args); LookupByName (vmname args);
          SetMemoryStatsPeriod (period args); ConnectionClose]
     end).
Proof.
  intros Hp Hfail. unfold main.
  destruct (Z.eqb_spec (period args) 0); [done|].
  unfold libvirt_call, with_connection.
  destruct Hfail as [Ho|[(Ho & Hl)|(Ho & Hl & Hs)]].
  - by rewrite Ho.
  - by rewrite Ho, Hl.
  - by rewrite Ho, Hl, Hs.
Qed.

(** ** Resize requests of one iteration *)

Lemma resize_events_calls (args : Args) (dom : virDomain) (raw : gmap string Z) :
  setMemory_calls (resize_events args dom raw) =
    if bool_decide
         (Spec.gate_open
            (Spec.delta (MemoryStats.dict_get raw "actual" 0)
                        (MemoryStats.dict_get raw "usable" 0) args) args)
    then [Spec.target (MemoryStats.dict_get raw "actual" 0)
                      (MemoryStats.dict_get raw "usable" 0) args]
    else [].
Proof.
  unfold resize_events. destruct (bool_decide _); [|done].
  by destruct (dom_setMemory dom _).
Qed.

(** The requests of an iteration: none, or the one of a Running iteration
    whose gate is open. *)
Lemma dispatch_calls (args : Args) (dom : virDomain) (st : store) :
  handlers_wf st →
  setMemory_calls (events_of (dispatch args dom st)) = [] ∨
  ∃ raw : gmap string Z,
    dom_state dom = LvOk VIR_DOMAIN_RUNNING ∧
    dom_memoryStats dom = LvOk raw ∧
    Spec.gate_open
      (Spec.delta (MemoryStats.dict_get raw "actual" 0)
                  (MemoryStats.dict_get raw "usable" 0) args) args ∧
    setMemory_calls (events_of (dispatch args dom st)) =
      [Spec.target (MemoryStats.dict_get raw "actual" 0)
                   (MemoryStats.dict_get raw "usable" 0) args].
Proof.
  intros Hwf.
  destruct (dispatch_cases args dom st Hwf)
    as [(msg & _ & ->)|[(s & _ & _ & ->)|[(st' & Hs & _ & ->)|
        (s & c & st' & msg & _ & _ & _ & _ & ->)]]]; [by left..| |by left].
  destruct (dom_memoryStats dom) as [raw|msg] eqn:Hstats; [|by left].
  cbn [events_of snd].
  change (setMemory_calls (DomState :: DomMemoryStats :: resize_events args dom raw))
    with (setMemory_calls (resize_events args dom raw)).
  rewrite resize_events_calls. case_bool_decide as Hgate; [|by left].
  right. by exists raw.
Qed.

Lemma dispatch_running_calls (args : Args) (dom : virDomain)
    (raw : gmap string Z) (st : store) :
  handlers_wf st →
  dom_state dom = LvOk VIR_DOMAIN_RUNNING →
  dom_memoryStats dom = LvOk raw →
  setMemory_calls (events_of (dispatch args dom st)) =
    if bool_decide
         (Spec.gate_open
            (Spec.delta (MemoryStats.dict_get raw "actual" 0)
                        (MemoryStats.dict_get raw "usable" 0) args) args)
    then [Spec.target (MemoryStats.dict_get raw "actual" 0)
                      (MemoryStats.dict_get raw "usable" 0) args]
    else [].
Proof.
  intros Hwf Hs Hstats.
  destruct (dispatch_running args dom st Hwf Hs) as (st' & _ & ->).
  rewrite Hstats. cbn [events_of snd].
  change (setMemory_calls (DomState :: DomMemoryStats :: resize_events args dom raw))
    with (setMemory_calls (resize_events args dom raw)).
  apply resize_events_calls.
Qed.

(** X1.  A domain that reports Blocked is handled by the handler written
    for NoState: the iteration logs "VIR_DOMAIN_NOSTATE" at level DEBUG under
    the logger of [NoStateStateHandler], does nothing else, and lets the loop
    continue. *)
Theorem blocked_domain_is_logged_as_nostate (args : Args) (dom : virDomain)
    (st : store) :
  handlers_wf st →
  dom_state dom = LvOk VIR_DOMAIN_BLOCKED →
  result_of (dispatch args dom st) = Ok 0 ∧
  events_of (dispatch args dom st) =
    [DomState; Log "NoStateStateHandler" DEBUG "VIR_DOMAIN_NOSTATE" []].
Proof.
  intros Hwf Hs.
  destruct (call_registered _ _ args st Hwf registry_blocked)
    as (self & st' & Hcall & Hself & _ & _).
  unfold dispatch.
  rewrite (bind_ok _ _ _ _ _ _ (state_run _ _ _ Hs)).
  rewrite (bind_ok _ _ _ _ _ _ Hcall).
  unfold handle. rewrite (bind_ok _ _ _ _ _ _ (type_of_run _ _ _ Hself)).
  by split.
Qed.

Lemma blocked_domain_is_logged_as_nostate_witness :
  result_of (dispatch sample_args (sample_in_state VIR_DOMAIN_BLOCKED) init_store)
    = Ok 0 ∧
  events_of (dispatch sample_args (sample_in_state VIR_DOMAIN_BLOCKED) init_store) =
    [DomState; Log "NoStateStateHandler" DEBUG "VIR_DOMAIN_NOSTATE" []].
Proof.
  exact (blocked_domain_is_logged_as_nostate sample_args
           (sample_in_state VIR_DOMAIN_BLOCKED) init_store wf_init eq_refl).
Defined.

(** X2.  Only a Running iteration touches the memory of the domain: when
    the domain reports any other state, or its state cannot be queried, the
    iteration neither fetches the statistics nor requests a resize. *)
Theorem only_running_touches_memory (args : Args) (dom : virDomain) (st : store) :
  handlers_wf st →
  dom_state dom ≠ LvOk VIR_DOMAIN_RUNNING →
  Forall (λ ev, ¬ memory_call ev) (events_of (dispatch args dom st)).
Proof.
  intros Hwf Hne.
  destruct (dispatch_cases args dom st Hwf)
    as [(msg & _ & ->)|[(s & _ & _ & ->)|[(st' & Hs & _ & _)|
        (s & c & st' & msg & _ & _ & _ & _ & ->)]]];
    [| |done|]; cbn [events_of snd]; repeat constructor; by intros [].
Qed.

Lemma only_running_touches_memory_witness :
  Forall (λ ev, ¬ memory_call ev)
    (events_of (dispatch sample_args (sample_in_state VIR_DOMAIN_PAUSED) init_store)).
Proof.
  apply (only_running_touches_memory sample_args
           (sample_in_state VIR_DOMAIN_PAUSED) init_store wf_init).
  discriminate.
Defined.

(** X3.  No iteration requests more than one resize, whatever the domain
    answers: there is no retry within an iteration. *)
Theorem at_most_one_resize_per_tick (args : Args) (dom : virDomain) (st : store) :
  handlers_wf st →
  (length (setMemory_calls (events_of (dispatch args dom st))) ≤ 1)%nat.
Proof.
  intros Hwf.
  destruct (dispatch_calls args dom st Hwf) as [->|(raw & _ & _ & _ & ->)];
    cbn; lia.
Qed.

Lemma at_most_one_resize_per_tick_witness :
  (length (setMemory_calls
             (events_of (dispatch sample_args sample_resize_refused init_store)))
   ≤ 1)%nat.
Proof.
  exact (at_most_one_resize_per_tick sample_args sample_resize_refused
           init_store wf_init).
Defined.

(** X4.  Every amount the controller asks for is at least the configured
    minimum, and leaves at least the free margin above what the guest uses
    (its allocation less what could be reclaimed). *)
Theorem resize_respects_floor_and_margin (args : Args) (dom : virDomain)
    (st : store) (mem : Z) :
  handlers_wf st →
  mem ∈ setMemory_calls (events_of (dispatch args dom st)) →
  min args ≤ mem ∧
  ∃ raw : gmap string Z,
    dom_memoryStats dom = LvOk raw ∧
    free args ≤
      mem - (MemoryStats.dict_get raw "actual" 0 - MemoryStats.dict_get raw "usable" 0).
Proof.
  intros Hwf Hin.
  destruct (dispatch_calls args dom st Hwf) as [Hc|(raw & _ & Hstats & _ & Hc)];
    rewrite Hc in Hin; [by apply elem_of_nil in Hin|].
  apply list_elem_of_singleton in Hin. subst mem. unfold Spec.target.
  split; [lia|]. exists raw. split; [done|lia].
Qed.

Lemma resize_respects_floor_and_margin_witness :
  min sample_args ≤ MB 2120 ∧
  ∃ raw : gmap string Z,
    dom_memoryStats sample_running = LvOk raw ∧
    free sample_args ≤
      MB 2120 -
      (MemoryStats.dict_get raw "actual" 0 - MemoryStats.dict_get raw "usable" 0).
Proof.
  apply (resize_respects_floor_and_margin sample_args sample_running init_store).
  - apply wf_init.
  - vm_compute. apply list_elem_of_here.
Defined.

(** X5.  With thresholds that are not negative, a resize is requested only
    across a threshold: a shrink takes off more than [maxThreshold], a
    growth adds more than [minThreshold].  In particular the amount asked
    for is never the current allocation. *)
Theorem resize_crosses_a_threshold (args : Args) (dom : virDomain)
    (raw : gmap string Z) (st : store) (mem : Z) :
  handlers_wf st →
  0 ≤ minThreshold args → 0 ≤ maxThreshold args →
  dom_memoryStats dom = LvOk raw →
  mem ∈ setMemory_calls (events_of (dispatch args dom st)) →
  let actual := MemoryStats.dict_get raw "actual" 0 in
  (mem < actual ∧ maxThreshold args < actual - mem) ∨
  (actual < mem ∧ minThreshold args < mem - actual).
Proof.
  intros Hwf Hmin Hmax Hstats Hin actual.
  destruct (dispatch_calls args dom st Hwf) as [Hc|(raw' & _ & Hstats' & Hgate & Hc)];
    rewrite Hc in Hin; [by apply elem_of_nil in Hin|].
  apply list_elem_of_singleton in Hin. subst mem.
  assert (raw' = raw) as -> by congruence.
  unfold Spec.gate_open, Spec.delta in Hgate. fold actual in Hgate |- *.
  lia.
Qed.

Lemma resize_crosses_a_threshold_witness :
  (MB 2120 < MB 4096 ∧ maxThreshold sample_args < MB 4096 - MB 2120) ∨
  (MB 4096 < MB 2120 ∧ minThreshold sample_args < MB 2120 - MB 4096).
Proof.
  refine (resize_crosses_a_threshold sample_args sample_running
            (<["actual" := MB 4096]> (<["usable" := MB 3000]> ∅)) init_store (MB 2120)
            wf_init _ _ eq_refl _).
  - vm_compute. discriminate.
  - vm_compute. discriminate.
  - vm_compute. apply list_elem_of_here.
Defined.

(** X6.  A granted resize is not followed by another one while the guest
    uses the same amount: if the allocation now equals the target computed
    from the previous sample, and allocation less reclaimable memory is what
    it was, the next Running iteration requests nothing (thresholds not
    negative). *)
Theorem resize_is_stable (args : Args) (dom' : virDomain)
    (raw raw' : gmap string Z) (st' : store) :
  handlers_wf st' →
  0 ≤ minThreshold args → 0 ≤ maxThreshold args →
  dom_state dom' = LvOk VIR_DOMAIN_RUNNING →
  dom_memoryStats dom' = LvOk raw' →
  let actual := MemoryStats.dict_get raw "actual" 0 in
  let usable := MemoryStats.dict_get raw "usable" 0 in
  let actual' := MemoryStats.dict_get raw' "actual" 0 in
  let usable' := MemoryStats.dict_get raw' "usable" 0 in
  actual' = Z.max (actual - usable + free args) (min args) →
  actual' - usable' = actual - usable →
  setMemory_calls (events_of (dispatch args dom' st')) = [].
Proof.
  intros Hwf Hmin Hmax Hs Hstats actual usable actual' usable' Hgranted Hused.
  rewrite (dispatch_running_calls args dom' raw' st' Hwf Hs Hstats).
  rewrite bool_decide_eq_false_2; [done|].
  unfold Spec.gate_open, Spec.delta, Spec.target.
  fold actual' usable'. lia.
Qed.

Lemma resize_is_stable_witness :
  setMemory_calls (events_of (dispatch sample_args sample_resized init_store)) = [].
Proof.
  apply (resize_is_stable sample_args sample_resized
           (<["actual" := MB 4096]> (<["usable" := MB 3000]> ∅))
           (<["actual" := MB 2120]> (<["usable" := MB 1024]> ∅)) init_store).
  - apply wf_init.
  - vm_compute. discriminate.
  - vm_compute. discriminate.
  - reflexivity.
  - reflexivity.
  - vm_compute. reflexivity.
  - vm_compute. reflexivity.
Defined.

(** X7.  A Running domain whose sample has neither "actual" nor "usable"
    is read as allocating 0 and reclaiming 0: the controller asks for the
    larger of the free margin and the minimum, provided that amount exceeds
    [minThreshold]. *)
Theorem missing_counters_read_as_zero (args : Args) (dom : virDomain)
    (raw : gmap string Z) (st : store) :
  handlers_wf st →
  dom_state dom = LvOk VIR_DOMAIN_RUNNING →
  dom_memoryStats dom = LvOk raw →
  raw !! "actual" = None → raw !! "usable" = None →
  minThreshold args < Z.max (free args) (min args) →
  setMemory_calls (events_of (dispatch args dom st)) =
    [Z.max (free args) (min args)].
Proof.
  intros Hwf Hs Hstats Ha Hu Hgrow.
  rewrite (dispatch_running_calls args dom raw st Hwf Hs Hstats).
  unfold MemoryStats.dict_get. rewrite Ha, Hu.
  unfold Spec.gate_open, Spec.delta, Spec.target.
  rewrite bool_decide_eq_true_2 by lia.
  reflexivity.
Qed.

Lemma missing_counters_read_as_zero_witness :
  setMemory_calls (events_of (dispatch sample_args sample_no_counters init_store)) =
    [Z.max (free sample_args) (min sample_args)].
Proof.
  apply (missing_counters_read_as_zero sample_args sample_no_counters ∅ init_store).
  - apply wf_init.
  - reflexivity.
  - reflexivity.
  - reflexivity.
  - reflexivity.
  - vm_compute. reflexivity.
Defined.

(** The store of an iteration is the one the constructor call leaves. *)
Lemma dispatch_store (args : Args) (dom : virDomain) (s : Z) (st : store) :
  handlers_wf st → dom_state dom = LvOk s →
  store_of (dispatch args dom st) = store_of (StateHandler_call s args st).
Proof.
  intros Hwf Hs. destruct (_registry !! s) as [c|] eqn:Hr.
  - destruct (dispatch_registered args dom s c st Hwf Hs Hr)
      as (self & st' & -> & _ & -> & _). done.
  - by rewrite (dispatch_unregistered args dom s st Hs Hr), call_unregistered.
Qed.

(** X8.  A Running iteration reads two counters only: two domains whose
    samples agree on "actual" and on "usable", and that answer resize
    requests alike, go through the same iteration — same signal, same store,
    same events — whatever else their samples hold. *)
Theorem running_reads_actual_and_usable_only (args : Args) (dom1 dom2 : virDomain)
    (raw1 raw2 : gmap string Z) (st : store) :
  handlers_wf st →
  dom_state dom1 = LvOk VIR_DOMAIN_RUNNING →
  dom_state dom2 = LvOk VIR_DOMAIN_RUNNING →
  dom_memoryStats dom1 = LvOk raw1 →
  dom_memoryStats dom2 = LvOk raw2 →
  raw1 !! "actual" = raw2 !! "actual" →
  raw1 !! "usable" = raw2 !! "usable" →
  (∀ mem, dom_setMemory dom1 mem = dom_setMemory dom2 mem) →
  dispatch args dom1 st = dispatch args dom2 st.
Proof.
  intros Hwf Hs1 Hs2 Hst1 Hst2 Ha Hu Hset.
  pose proof (dispatch_store args dom1 _ st Hwf Hs1) as Hstore1.
  pose proof (dispatch_store args dom2 _ st Hwf Hs2) as Hstore2.
  destruct (dispatch_running args dom1 st Hwf Hs1) as (st1 & _ & Hd1).
  destruct (dispatch_running args dom2 st Hwf Hs2) as (st2 & _ & Hd2).
  rewrite Hd1 in Hstore1 |- *. rewrite Hd2 in Hstore2 |- *.
  cbn [store_of fst snd] in Hstore1, Hstore2.
  rewrite Hstore1, Hstore2, Hst1, Hst2.
  unfold resize_events, MemoryStats.dict_get. by rewrite Ha, Hu, Hset.
Qed.

Lemma running_reads_actual_and_usable_only_witness :
  dispatch sample_args sample_running init_store =
  dispatch sample_args
    (mkDomain (LvOk VIR_DOMAIN_RUNNING)
       (LvOk (<["rss" := MB 900]> (<["actual" := MB 4096]> (<["usable" := MB 3000]> ∅))))
       (λ _, LvOk tt))
    init_store.
Proof.
  apply (running_reads_actual_and_usable_only sample_args sample_running
           (mkDomain (LvOk VIR_DOMAIN_RUNNING)
              (LvOk (<["rss" := MB 900]>
                       (<["actual" := MB 4096]> (<["usable" := MB 3000]> ∅))))
              (λ _, LvOk tt))
           (<["actual" := MB 4096]> (<["usable" := MB 3000]> ∅))
           (<["rss" := MB 900]> (<["actual" := MB 4096]> (<["usable" := MB 3000]> ∅)))
           init_store).
  - apply wf_init.
  - reflexivity.
  - reflexivity.
  - reflexivity.
  - reflexivity.
  - vm_compute. reflexivity.
  - vm_compute. reflexivity.
  - reflexivity.
Defined.

(** ** The signal of an iteration and the state of the domain *)

Lemma dispatch_continues_iff (args : Args) (dom : virDomain) (st : store) :
  handlers_wf st →
  result_of (dispatch args dom st) = Ok 0 ↔ reports continuing_state dom.
Proof.
  intros Hwf. split.
  - intros Hres.
    destruct (dispatch_cases args dom st Hwf)
      as [(msg & _ & Hd)|[(s & _ & _ & Hd)|[(st' & Hs & _ & _)|
          (s & c & st' & msg & Hs & _ & Hr & _ & Hd)]]];
      [by rewrite Hd in Hres..| |].
    + exists VIR_DOMAIN_RUNNING. split; [done|]. by left.
    + rewrite Hd in Hres. cbn in Hres. exists s. split; [done|].
      apply registry_cases in Hr.
      destruct Hr as [[-> _]|[[-> _]|[[-> _]|[[_ ->]|[[_ ->]|[-> _]]]]]];
        unfold continuing_state; try tauto; by cbn in Hres.
  - intros Hdom.
    by destruct (dispatch_continuing args dom st Hwf Hdom) as (st' & evs & _ & ->).
Qed.

(** X9.  What an iteration can come to, in a store whose cache is well
    formed.  It returns 0 exactly for a Running, Blocked, Paused or
    PmSuspended domain and 1 exactly for one shutting down or shut off; it
    raises [KeyError] exactly for a state without handler, and
    [libvirtError] exactly when the state query fails.  No other signal and
    no other exception leaves an iteration. *)
Theorem tick_outcomes (args : Args) (dom : virDomain) (st : store) :
  handlers_wf st →
  match result_of (dispatch args dom st) with
  | Ok r =>
      (r = 0 ∧ reports continuing_state dom) ∨ (r = 1 ∧ reports stopping_state dom)
  | Raise e =>
      (∃ s, e = KeyError s ∧ dom_state dom = LvOk s ∧ _registry !! s = None) ∨
      (∃ msg, e = libvirtError msg ∧ dom_state dom = LvError msg)
  end.
Proof.
  intros Hwf.
  destruct (dispatch_cases args dom st Hwf)
    as [(msg & Hs & ->)|[(s & Hs & Hr & ->)|[(st' & Hs & _ & ->)|
        (s & c & st' & msg & Hs & _ & Hr & _ & ->)]]]; cbn [result_of fst].
  - right. by exists msg.
  - left. by exists s.
  - left. split; [done|]. exists VIR_DOMAIN_RUNNING. split; [done|]. by left.
  - apply registry_cases in Hr.
    destruct Hr as [[-> ->]|[[-> ->]|[[-> ->]|[[-> ->]|[[-> ->]|[-> ->]]]]]];
      cbn [signal_of];
      [left|left|left|right|right|left]; (split; [done|]); eexists; (split; [done|]);
      unfold continuing_state, stopping_state; tauto.
Qed.

Lemma tick_outcomes_witness :
  match result_of (dispatch sample_args sample_unreachable init_store) with
  | Ok r =>
      (r = 0 ∧ reports continuing_state sample_unreachable) ∨
      (r = 1 ∧ reports stopping_state sample_unreachable)
  | Raise e =>
      (∃ s, e = KeyError s ∧ dom_state sample_unreachable = LvOk s ∧
            _registry !! s = None) ∨
      (∃ msg, e = libvirtError msg ∧ dom_state sample_unreachable = LvError msg)
  end.
Proof.
  exact (tick_outcomes sample_args sample_unreachable init_store wf_init).
Defined.

(** ** Runs of the loop *)

Lemma sleeps_app (evs1 evs2 : list event) :
  sleeps (evs1 ++ evs2) = sleeps evs1 ++ sleeps evs2.
Proof. apply omap_app. Qed.

Lemma sleeps_tick (evs : list event) : Forall tick_event evs → sleeps evs = [].
Proof.
  induction 1 as [|ev evs Hev _ IH]; [done|].
  destruct ev; try done; exact IH.
Qed.

(** Iterations that all continue: the run they make, with its sleeps. *)
Lemma main_loop_prefix_run (args : Args) (before : list virDomain) (st : store) :
  handlers_wf st → Forall (reports continuing_state) before →
  ∃ (st' : store) (evs : list event),
    handlers_wf st' ∧
    sleeps evs = replicate (length before) (period args) ∧
    Forall loop_event evs ∧
    ∀ rest : list virDomain,
      main_loop args (before ++ rest) st =
        (result_of (main_loop args rest st'),
         store_of (main_loop args rest st'),
         evs ++ events_of (main_loop args rest st')).
Proof.
  revert st. induction before as [|dom before IH]; intros st Hwf Hall.
  - exists st, []. split; [done|]. split; [done|]. split; [done|].
    intros rest. cbn [app]. by destruct (main_loop args rest st) as [[r st2] ev2].
  - apply Forall_cons in Hall as [Hdom Hall].
    pose proof (dispatch_events_tick args dom st Hwf) as Hev.
    destruct (dispatch_continuing args dom st Hwf Hdom) as (st1 & evs1 & Hwf1 & Hd).
    rewrite Hd in Hev. cbn [events_of snd] in Hev.
    destruct (IH st1 Hwf1 Hall) as (st' & evs & Hwf' & Hsl & Hlev & Hrun).
    exists st', (evs1 ++ Sleep (period args) :: evs).
    split; [done|]. split; [|split].
    + rewrite sleeps_app, (sleeps_tick _ Hev).
      change (sleeps (Sleep (period args) :: evs))
        with (period args :: sleeps evs).
      by rewrite Hsl.
    + apply Forall_app. split.
      * eapply Forall_impl; [exact Hev|]. by intros [].
      * by constructor.
    + intros rest. cbn [app].
      rewrite (main_loop_continue _ _ _ _ _ _ Hd), (Hrun rest).
      cbn [result_of store_of events_of fst snd].
      by rewrite <- app_assoc.
Qed.

(** An iteration that does not continue ends the loop, whatever follows. *)
Lemma main_loop_ends (args : Args) (dom : virDomain) (after : list virDomain)
    (st : store) :
  handlers_wf st → ¬ reports continuing_state dom →
  main_loop args (dom :: after) st = main_loop args [dom] st ∧
  result_of (main_loop args (dom :: after) st) ≠ Ok None ∧
  events_of (main_loop args (dom :: after) st) = events_of (dispatch args dom st).
Proof.
  intros Hwf Hdom.
  assert (result_of (dispatch args dom st) ≠ Ok 0) as Hne.
  { intros H. by apply Hdom, (dispatch_continues_iff args dom st Hwf). }
  destruct (main_loop_cases args dom after st)
    as [(st' & evs & Hd & _)|[(r & st' & evs & Hd & Hr & ->)|
        (e & st' & evs & Hd & ->)]].
  - by rewrite Hd in Hne.
  - rewrite (main_loop_stop _ _ [] _ _ _ _ Hd Hr), Hd. done.
  - rewrite (main_loop_raise _ _ [] _ _ _ _ Hd), Hd. done.
Qed.

(** X10.  The loop sleeps once, for [period] seconds, after each iteration
    that continues, and not after the one that ends it: a run of continuing
    iterations followed by one that does not continue sleeps as many times
    as there were continuing iterations. *)
Theorem one_sleep_per_continuing_tick (args : Args) (before after : list virDomain)
    (dom : virDomain) (st : store) :
  handlers_wf st →
  Forall (reports continuing_state) before →
  ¬ reports continuing_state dom →
  sleeps (events_of (main_loop args (before ++ dom :: after) st)) =
    replicate (length before) (period args).
Proof.
  intros Hwf Hbefore Hdom.
  destruct (main_loop_prefix_run args before st Hwf Hbefore)
    as (st' & evs & Hwf' & Hsl & _ & Hrun).
  rewrite Hrun. cbn [events_of snd].
  destruct (main_loop_ends args dom after st' Hwf' Hdom) as (_ & _ & ->).
  rewrite sleeps_app, Hsl, (sleeps_tick _ (dispatch_events_tick args dom st' Hwf')).
  by rewrite app_nil_r.
Qed.

Lemma one_sleep_per_continuing_tick_witness :
  sleeps (events_of
    (main_loop sample_args
       ([sample_running; sample_in_state VIR_DOMAIN_PAUSED] ++
        sample_in_state VIR_DOMAIN_SHUTOFF :: [sample_running]) init_store)) =
  replicate 2%nat (period sample_args).
Proof.
  apply (one_sleep_per_continuing_tick sample_args
           [sample_running; sample_in_state VIR_DOMAIN_PAUSED] [sample_running]
           (sample_in_state VIR_DOMAIN_SHUTOFF) init_store).
  - apply wf_init.
  - repeat constructor.
    + exists VIR_DOMAIN_RUNNING. split; [reflexivity|]. left. reflexivity.
    + exists VIR_DOMAIN_PAUSED. split; [reflexivity|]. right. right. left. reflexivity.
  - intros (s & Hs & Hc). injection Hs as <-.
    destruct Hc as [H|[H|[H|H]]]; discriminate H.
Defined.

(** X11.  The loop stops at the first iteration that does not continue:
    what the domain would answer afterwards changes nothing — not the
    result, not the store, not the events. *)
Theorem ticks_after_exit_are_ignored (args : Args) (before after : list virDomain)
    (dom : virDomain) (st : store) :
  handlers_wf st →
  ¬ reports continuing_state dom →
  main_loop args (before ++ dom :: after) st = main_loop args (before ++ [dom]) st.
Proof.
  intros Hwf Hdom. revert st Hwf.
  induction before as [|tick before IH]; intros st Hwf.
  - cbn [app]. by destruct (main_loop_ends args dom after st Hwf Hdom) as (-> & _).
  - cbn [app].
    pose proof (dispatch_wf args tick st Hwf) as Hwf'.
    destruct (main_loop_cases args tick (before ++ dom :: after) st)
      as [(st' & evs & Hd & ->)|[(r & st' & evs & Hd & Hr & ->)|
          (e & st' & evs & Hd & ->)]].
    + rewrite Hd in Hwf'. cbn [store_of fst snd] in Hwf'.
      rewrite (main_loop_continue _ _ (before ++ [dom]) _ _ _ Hd).
      by rewrite (IH st' Hwf').
    + by rewrite (main_loop_stop _ _ (before ++ [dom]) _ _ _ _ Hd Hr).
    + by rewrite (main_loop_raise _ _ (before ++ [dom]) _ _ _ _ Hd).
Qed.

Lemma ticks_after_exit_are_ignored_witness :
  main_loop sample_args
    ([sample_running] ++ sample_in_state VIR_DOMAIN_CRASHED :: [sample_steady])
    init_store =
  main_loop sample_args
    ([sample_running] ++ [sample_in_state VIR_DOMAIN_CRASHED]) init_store.
Proof.
  apply (ticks_after_exit_are_ignored sample_args [sample_running] [sample_steady]
           (sample_in_state VIR_DOMAIN_CRASHED) init_store).
  - apply wf_init.
  - intros (s & Hs & Hc). injection Hs as <-.
    destruct Hc as [H|[H|[H|H]]]; discriminate H.
Defined.

(** X12.  The loop does not leave by itself: after the listed iterations it
    is still polling if and only if every one of them met a Running,
    Blocked, Paused or PmSuspended domain. *)
Theorem polling_iff_all_continue (args : Args) (ticks : list virDomain) (st : store) :
  handlers_wf st →
  result_of (main_loop args ticks st) = Ok None ↔
  Forall (reports continuing_state) ticks.
Proof.
  revert st. induction ticks as [|dom ticks IH]; intros st Hwf.
  - split; [by constructor|done].
  - pose proof (dispatch_wf args dom st Hwf) as Hwf'.
    pose proof (dispatch_continues_iff args dom st Hwf) as Hiff.
    destruct (main_loop_cases args dom ticks st)
      as [(st' & evs & Hd & ->)|[(r & st' & evs & Hd & Hr & ->)|
          (e & st' & evs & Hd & ->)]];
      rewrite Hd in Hwf', Hiff; cbn [result_of store_of fst snd] in *.
    + rewrite (IH st' Hwf'). split.
      * intros Hall. constructor; [by apply Hiff|done].
      * intros Hall. by apply Forall_cons in Hall as [_ Hall].
    + split; [done|]. intros Hall. apply Forall_cons in Hall as [Hdom _].
      apply Hiff in Hdom. congruence.
    + split; [done|]. intros Hall. apply Forall_cons in Hall as [Hdom _].
      by apply Hiff in Hdom.
Qed.

Lemma polling_iff_all_continue_witness :
  result_of
    (main_loop sample_args [sample_running; sample_in_state VIR_DOMAIN_PAUSED]
       init_store) = Ok None ↔
  Forall (reports continuing_state)
    [sample_running; sample_in_state VIR_DOMAIN_PAUSED].
Proof.
  exact (polling_iff_all_continue sample_args
           [sample_running; sample_in_state VIR_DOMAIN_PAUSED] init_store wf_init).
Defined.

(** X13.  A [libvirtError] from the state query is not absorbed: unlike the
    errors inside the Running handler it leaves the loop, and the process
    that met it after any number of continuing iterations ends with the
    status of an uncaught exception, nothing having been logged for it. *)
Theorem state_query_failure_is_fatal (args : Args) (hv : hypervisor)
    (before after : list virDomain) (dom : virDomain) (msg : string) :
  period args ≠ 0 → setup_succeeds hv →
  hv_ticks hv = before ++ dom :: after →
  Forall (reports continuing_state) before →
  dom_state dom = LvError msg →
  result_of (main args hv init_store) = Raise (libvirtError msg) ∧
  exit_status args hv = Some 1 ∧
  ∃ evs, events_of (main args hv init_store) = evs ++ [DomState; ConnectionClose].
Proof.
  intros Hp Hsetup Hticks Hbefore Hs.
  destruct (main_loop_prefix_run args before init_store wf_init Hbefore)
    as (st' & evs & _ & _ & _ & Hrun).
  assert (main_loop args (hv_ticks hv) init_store =
          (Raise (libvirtError msg), st', evs ++ [DomState])) as Hloop.
  { rewrite Hticks, Hrun.
    by rewrite (main_loop_raise _ _ after _ _ _ _ (dispatch_state_fails args dom msg st' Hs)). }
  rewrite exit_status_of_loop, main_run by done. rewrite Hloop.
  cbn [result_of store_of events_of fst snd close_after].
  split; [done|]. split; [done|].
  eexists (_ :: _ :: _ :: evs). cbn [app]. by rewrite <- app_assoc.
Qed.

Lemma state_query_failure_is_fatal_witness :
  result_of
    (main sample_args (sample_hypervisor [sample_running; sample_unreachable])
       init_store) = Raise (libvirtError "connection lost") ∧
  exit_status sample_args (sample_hypervisor [sample_running; sample_unreachable]) =
    Some 1 ∧
  ∃ evs,
    events_of
      (main sample_args (sample_hypervisor [sample_running; sample_unreachable])
         init_store) = evs ++ [DomState; ConnectionClose].
Proof.
  apply (state_query_failure_is_fatal sample_args
           (sample_hypervisor [sample_running; sample_unreachable])
           [sample_running] [] sample_unreachable "connection lost").
  - discriminate.
  - repeat split.
  - reflexivity.
  - repeat constructor.
    exists VIR_DOMAIN_RUNNING. split; [reflexivity|]. left. reflexivity.
  - reflexivity.
Defined.

(** ** The process *)

Lemma main_period_zero (args : Args) (hv : hypervisor) (st : store) :
  period args = 0 →
  main args hv st = (Ok (Some 0), st, []) ∧ exit_status args hv = Some 0.
Proof. intros Hp. unfold exit_status, main. rewrite Hp. by split. Qed.

Lemma setup_cases (hv : hypervisor) :
  setup_succeeds hv ∨ ∃ msg : string, setup_fails hv msg.
Proof.
  unfold setup_succeeds, setup_fails.
  destruct (hv_open hv) as [[]|msg]; [|right; exists msg; by left].
  destruct (hv_lookupByName hv) as [[]|msg];
    [|right; exists msg; right; left; by split].
  destruct (hv_setMemoryStatsPeriod hv) as [[]|msg];
    [by left|right; exists msg; right; right; by repeat split].
Qed.

Lemma main_returns_zero (args : Args) (hv : hypervisor) (st : store) (v : Z) :
  result_of (main args hv st) = Ok (Some v) → v = 0.
Proof.
  destruct (decide (period args = 0)) as [Hp|Hp].
  - rewrite (proj1 (main_period_zero args hv st Hp)). cbn. congruence.
  - destruct (setup_cases hv) as [Hsetup|[msg Hfail]].
    + rewrite main_result by done. apply main_loop_returns_zero.
    + by rewrite (main_setup_fails args hv msg st Hp Hfail).
Qed.

(** X14.  [main] returns nothing but 0, so a process that has ended did so
    with status 0 ([main] returned: the loop was left, or polling is
    switched off) or with status 1 (an exception reached the top level); no
    other status exists. *)
Theorem exit_status_is_zero_or_one (args : Args) (hv : hypervisor) (v : Z) :
  exit_status args hv = Some v →
  (v = 0 ∧ result_of (main args hv init_store) = Ok (Some 0)) ∨
  (v = 1 ∧ ∃ e : exn, result_of (main args hv init_store) = Raise e).
Proof.
  unfold exit_status.
  destruct (result_of (main args hv init_store)) as [[v'|]|e] eqn:Hres; [|done|].
  - intros [= <-]. left. apply main_returns_zero in Hres as Hv. by subst v'.
  - intros [= <-]. right. split; [done|]. by exists e.
Qed.

Lemma exit_status_is_zero_or_one_witness :
  (1 = 0 ∧
   result_of
     (main sample_args (sample_hypervisor [sample_in_state VIR_DOMAIN_CRASHED])
        init_store) = Ok (Some 0)) ∨
  (1 = 1 ∧
   ∃ e : exn,
     result_of
       (main sample_args (sample_hypervisor [sample_in_state VIR_DOMAIN_CRASHED])
          init_store) = Raise e).
Proof.
  apply (exit_status_is_zero_or_one sample_args
           (sample_hypervisor [sample_in_state VIR_DOMAIN_CRASHED]) 1).
  vm_compute. reflexivity.
Defined.

(** X15.  The connection is released on every way out of [main] once it
    was opened: whenever the session opened and [main] has ended, by a
    return or by an exception, the events start with the one [open], end
    with the one [close], and hold no other of either. *)
Theorem connection_closed_on_every_exit (args : Args) (hv : hypervisor) (st : store) :
  handlers_wf st →
  period args ≠ 0 →
  hv_open hv = LvOk tt →
  result_of (main args hv st) ≠ Ok None →
  ∃ inside : list event,
    events_of (main args hv st) =
      LibvirtOpen (connect args) :: inside ++ [ConnectionClose] ∧
    Forall (λ ev, ev ≠ ConnectionClose ∧ ∀ uri, ev ≠ LibvirtOpen uri) inside.
Proof.
  intros Hwf Hp Ho Hres.
  destruct (setup_cases hv) as [Hsetup|[msg Hfail]].
  - rewrite main_run in Hres |- * by done.
    cbn [result_of events_of fst snd] in *.
    exists (LookupByName (vmname args) :: SetMemoryStatsPeriod (period args) ::
            events_of (main_loop args (hv_ticks hv) st)).
    split.
    + destruct (result_of (main_loop args (hv_ticks hv) st)) as [[v|]|e]; done.
    + do 2 (constructor; [done|]).
      eapply Forall_impl; [exact (main_loop_events args (hv_ticks hv) st Hwf)|].
      by intros [].
  - rewrite (main_setup_fails args hv msg st Hp Hfail). cbn [events_of snd].
    rewrite Ho.
    destruct (hv_lookupByName hv) as [[]|msg'].
    + exists [LookupByName (vmname args); SetMemoryStatsPeriod (period args)].
      split; [done|]. by repeat constructor.
    + exists [LookupByName (vmname args)]. split; [done|]. by repeat constructor.
Qed.

Lemma connection_closed_on_every_exit_witness :
  ∃ inside : list event,
    events_of
      (main sample_args
         (sample_hypervisor [sample_running; sample_in_state VIR_DOMAIN_SHUTOFF])
         init_store) =
      LibvirtOpen (connect sample_args) :: inside ++ [ConnectionClose] ∧
    Forall (λ ev, ev ≠ ConnectionClose ∧ ∀ uri, ev ≠ LibvirtOpen uri) inside.
Proof.
  apply (connection_closed_on_every_exit sample_args
           (sample_hypervisor [sample_running; sample_in_state VIR_DOMAIN_SHUTOFF])
           init_store).
  - apply wf_init.
  - discriminate.
  - reflexivity.
  - vm_compute. discriminate.
Defined.

(** X16.  When one of the three calls of the set-up fails, [main] raises
    that [libvirtError] and the process ends with status 1; no iteration
    runs and nothing sleeps, the store is untouched, and the connection is
    closed exactly when it had been opened. *)
Theorem setup_failure_runs_no_iteration (args : Args) (hv : hypervisor)
    (msg : string) (st : store) :
  period args ≠ 0 →
  setup_fails hv msg →
  result_of (main args hv st) = Raise (libvirtError msg) ∧
  store_of (main args hv st) = st ∧
  exit_status args hv = Some 1 ∧
  Forall (λ ev, ¬ loop_event ev) (events_of (main args hv st)) ∧
  (ConnectionClose ∈ events_of (main args hv st) ↔ hv_open hv = LvOk tt).
Proof.
  intros Hp Hfail. unfold exit_status.
  rewrite !(main_setup_fails args hv msg _ Hp Hfail).
  cbn [result_of store_of events_of fst snd].
  split; [done|]. split; [done|]. split; [done|].
  destruct (hv_open hv) as [[]|msg1] eqn:Ho.
  - destruct (hv_lookupByName hv) as [[]|msg2].
    + split; [repeat (constructor; [by intros []|]); constructor|].
      split; [done|]. intros _. rewrite !elem_of_cons. tauto.
    + split; [repeat (constructor; [by intros []|]); constructor|].
      split; [done|]. intros _. rewrite !elem_of_cons. tauto.
  - split; [repeat (constructor; [by intros []|]); constructor|].
    split; [|done].
    intros Hin. apply list_elem_of_singleton in Hin. discriminate Hin.
Qed.

Lemma setup_failure_runs_no_iteration_witness :
  result_of
    (main sample_args
       (mkHypervisor (LvOk tt) (LvError "no such domain") (LvOk tt) [sample_running])
       init_store) = Raise (libvirtError "no such domain") ∧
  exit_status sample_args
    (mkHypervisor (LvOk tt) (LvError "no such domain") (LvOk tt) [sample_running]) =
    Some 1.
Proof.
  destruct (setup_failure_runs_no_iteration sample_args
              (mkHypervisor (LvOk tt) (LvError "no such domain") (LvOk tt)
                 [sample_running])
              "no such domain" init_store) as (H1 & _ & H3 & _).
  - discriminate.
  - right. left. split; reflexivity.
  - exact (conj H1 H3).
Defined.

(** ** The size of the cache *)

Lemma tight_init : cache_tight init_store.
Proof.
  unfold cache_tight, init_store. cbn [_handlers heap].
  split; [intros s1 s2 self H; by rewrite lookup_empty in H|].
  split; [intros s self H; by rewrite lookup_empty in H|].
  split; [by rewrite dom_empty_L|].
  by rewrite map_size_empty.
Qed.

Lemma call_tight (s : Z) (args : Args) (st : store) :
  cache_tight st → cache_tight (store_of (StateHandler_call s args st)).
Proof.
  intros (Hinj & Hrange & Hdom & Hlen).
  destruct (_registry !! s) as [c|] eqn:Hr; [|by rewrite call_unregistered].
  destruct (_handlers st !! s) as [self|] eqn:Hh.
  - rewrite (call_cached s c self) by done.
    unfold cache_tight. cbn [store_of fst snd _handlers heap].
    rewrite length_alter. done.
  - rewrite (call_fresh s c) by done.
    unfold cache_tight. cbn [store_of fst snd _handlers heap].
    rewrite length_app. cbn [length].
    split; [|split; [|split]].
    + intros s1 s2 self H1 H2.
      apply lookup_insert_Some in H1 as [[<- <-]|[Hne1 H1]];
        apply lookup_insert_Some in H2 as [[<- Heq]|[Hne2 H2]]; try done.
      * apply Hrange in H2. lia.
      * subst self. apply Hrange in H1. lia.
      * by apply (Hinj s1 s2 self).
    + intros s' self H.
      apply lookup_insert_Some in H as [[<- <-]|[_ H]]; [lia|].
      apply Hrange in H. lia.
    + rewrite dom_insert_L. apply union_least; [|done].
      apply singleton_subseteq_l, elem_of_dom. by exists c.
    + rewrite map_size_insert_None by done. lia.
Qed.

Lemma calls_tight (l : list (Z * Args)) (st : store) :
  cache_tight st → cache_tight (calls l st).
Proof.
  revert st. induction l as [|[s a] l IH]; intros st Ht; [done|].
  cbn. apply IH. by apply call_tight.
Qed.

Lemma dispatch_tight (args : Args) (dom : virDomain) (st : store) :
  handlers_wf st → cache_tight st → cache_tight (store_of (dispatch args dom st)).
Proof.
  intros Hwf Ht. destruct (dom_state dom) as [s|msg] eqn:Hs.
  - rewrite (dispatch_store args dom s st Hwf Hs). by apply call_tight.
  - by rewrite (dispatch_state_fails args dom msg st Hs).
Qed.

Lemma main_loop_tight (args : Args) (ticks : list virDomain) (st : store) :
  handlers_wf st → cache_tight st →
  cache_tight (store_of (main_loop args ticks st)).
Proof.
  revert st. induction ticks as [|dom ticks IH]; intros st Hwf Ht; [done|].
  pose proof (dispatch_wf args dom st Hwf) as Hwf'.
  pose proof (dispatch_tight args dom st Hwf Ht) as Ht'.
  destruct (main_loop_cases args dom ticks st)
    as [(st' & evs & Hd & ->)|[(r & st' & evs & Hd & _ & ->)|
        (e & st' & evs & Hd & ->)]];
    rewrite Hd in Hwf', Ht'; cbn [store_of fst snd] in *; [by apply IH|done|done].
Qed.

Lemma registry_size : size (dom _registry) = 6%nat.
Proof.
  vm_compute. reflexivity.
Qed.

Lemma tight_at_most_six (st : store) :
  cache_tight st → (length (heap st) ≤ 6)%nat.
Proof.
  intros (_ & _ & Hdom & ->).
  rewrite <- size_dom, <- registry_size. by apply subseteq_size.
Qed.

(** X17.  However long the process polls and whatever the domain reports,
    it never holds more than six handler objects — one per registered
    state at most — and every object it holds is a cached handler. *)
Theorem at_most_six_handlers (args : Args) (hv : hypervisor) :
  (length (heap (store_of (main args hv init_store))) ≤ 6)%nat ∧
  length (heap (store_of (main args hv init_store))) =
    size (_handlers (store_of (main args hv init_store))).
Proof.
  assert (cache_tight (store_of (main args hv init_store))) as Ht.
  { destruct (decide (period args = 0)) as [Hp|Hp].
    - rewrite (proj1 (main_period_zero args hv init_store Hp)). apply tight_init.
    - destruct (setup_cases hv) as [Hsetup|[msg Hfail]].
      + rewrite main_run by done. cbn [store_of fst snd].
        apply main_loop_tight; [apply wf_init|apply tight_init].
      + rewrite (main_setup_fails args hv msg init_store Hp Hfail).
        apply tight_init. }
  split; [by apply tight_at_most_six|]. by destruct Ht as (_ & _ & _ & ->).
Qed.

(** X18.  Two different states never share a handler: the objects that the
    constructor gives for two distinct states, at any distance in time, are
    distinct. *)
Theorem distinct_states_get_distinct_handlers (s1 s2 : Z) (args1 args2 : Args)
    (between : list (Z * Args)) (st : store) (self1 self2 : loc) :
  handlers_wf st → cache_tight st →
  s1 ≠ s2 →
  result_of (StateHandler_call s1 args1 st) = Ok self1 →
  result_of
    (StateHandler_call s2 args2
       (calls between (store_of (StateHandler_call s1 args1 st)))) = Ok self2 →
  self1 ≠ self2.
Proof.
  intros Hwf Ht Hne H1 H2 Heq. subst self2.
  pose proof (call_tight s1 args1 st Ht) as Ht1.
  destruct (_registry !! s1) as [c1|] eqn:Hr1;
    [|by rewrite call_unregistered in H1].
  destruct (call_registered s1 c1 args1 st Hwf Hr1)
    as (l1 & st1 & Hcall1 & _ & Hh1 & Hwf1).
  rewrite Hcall1 in H1, H2, Ht1. cbn [result_of store_of fst snd] in *.
  injection H1 as ->.
  pose proof (calls_wf between st1 Hwf1) as Hwf2.
  pose proof (calls_tight between st1 Ht1) as Ht2.
  pose proof (calls_keep_handler between s1 self1 st1 Hh1) as Hh2.
  destruct (_registry !! s2) as [c2|] eqn:Hr2;
    [|by rewrite call_unregistered in H2].
  destruct (call_registered s2 c2 args2 _ Hwf2 Hr2)
    as (l2 & st3 & Hcall2 & _ & Hh3 & _).
  pose proof (call_tight s2 args2 _ Ht2) as Ht3.
  pose proof (call_keeps_handler s1 s2 self1 args2 _ Hh2) as Hh3'.
  rewrite Hcall2 in H2, Ht3, Hh3'. cbn [result_of store_of fst snd] in *.
  injection H2 as ->.
  destruct Ht3 as (Hinj & _). by apply Hne, (Hinj s1 s2 self1).
Qed.

Lemma distinct_states_get_distinct_handlers_witness : (0 ≠ 1)%nat.
Proof.
  apply (distinct_states_get_distinct_handlers VIR_DOMAIN_RUNNING VIR_DOMAIN_PAUSED
           sample_args sample_args [(VIR_DOMAIN_RUNNING, sample_disabled)]
           init_store 0%nat 1%nat).
  - apply wf_init.
  - apply tight_init.
  - discriminate.
  - reflexivity.
  - vm_compute. reflexivity.
Defined.

(** X19.  The constructor call for one state leaves the handlers of the
    other states as they are: it rewrites the slots of its own object only. *)
Theorem call_leaves_other_handlers_alone (s1 s2 : Z) (self1 : loc) (args : Args)
    (st : store) :
  cache_tight st →
  _handlers st !! s1 = Some self1 →
  s2 ≠ s1 →
  heap (store_of (StateHandler_call s2 args st)) !! self1 = heap st !! self1.
Proof.
  intros (Hinj & Hrange & _) Hh1 Hne.
  destruct (_registry !! s2) as [c|] eqn:Hr; [|by rewrite call_unregistered].
  destruct (_handlers st !! s2) as [self2|] eqn:Hh2.
  - rewrite (call_cached s2 c self2) by done. cbn [store_of fst snd heap].
    apply list_lookup_alter_ne. intros ->. by apply Hne, (Hinj s2 s1 self1).
  - rewrite (call_fresh s2 c) by done. cbn [store_of fst snd heap].
    apply lookup_app_l. by apply (Hrange s1).
Qed.

Lemma call_leaves_other_handlers_alone_witness :
  heap (store_of
          (StateHandler_call VIR_DOMAIN_PAUSED sample_disabled
             (store_of (StateHandler_call VIR_DOMAIN_RUNNING sample_args init_store))))
    !! 0%nat =
  heap (store_of (StateHandler_call VIR_DOMAIN_RUNNING sample_args init_store))
    !! 0%nat.
Proof.
  apply (call_leaves_other_handlers_alone VIR_DOMAIN_RUNNING VIR_DOMAIN_PAUSED 0%nat
           sample_disabled
           (store_of (StateHandler_call VIR_DOMAIN_RUNNING sample_args init_store))).
  - apply call_tight, tight_init.
  - vm_compute. reflexivity.
  - discriminate.
Defined.

(** ** Resizes and their log records *)

(** X21.  No resize is requested silently and none is announced without
    being requested: in every iteration there are as many records at level
    INFO as there are resize requests, also when libvirt refuses the
    request. *)
Theorem every_resize_is_announced (args : Args) (dom : virDomain) (st : store) :
  handlers_wf st →
  logged_at INFO (events_of (dispatch args dom st)) =
    (λ _, ("RunningStateHandler", "memory resized to %.2f (%+.2fMB)")) <$>
      setMemory_calls (events_of (dispatch args dom st)).
Proof.
  intros Hwf.
  destruct (dispatch_cases args dom st Hwf)
    as [(msg & _ & ->)|[(s & _ & _ & ->)|[(st' & _ & _ & ->)|
        (s & c & st' & msg & _ & _ & _ & _ & ->)]]]; [done|done| |done].
  cbn [events_of snd].
  destruct (dom_memoryStats dom) as [raw|msg]; [|done].
  unfold resize_events. destruct (bool_decide _); [|done].
  by destruct (dom_setMemory dom _).
Qed.

Lemma every_resize_is_announced_witness :
  logged_at INFO (events_of (dispatch sample_args sample_resize_refused init_store)) =
    (λ _, ("RunningStateHandler", "memory resized to %.2f (%+.2fMB)")) <$>
      setMemory_calls
        (events_of (dispatch sample_args sample_resize_refused init_store)).
Proof.
  exact (every_resize_is_announced sample_args sample_resize_refused init_store
           wf_init).
Defined.

(** ** The iterations that stop the loop, in full *)

(** The iteration for a state whose handler only logs, read off the
    constructor call and the class of the object it gives. *)
Ltac logging_tick args Hwf Hs Hreg :=
  let self := fresh "self" in
  let st' := fresh "st'" in
  let Hcall := fresh "Hcall" in
  let Hself := fresh "Hself" in
  destruct (call_registered _ _ args _ Hwf Hreg)
    as (self & st' & Hcall & Hself & _ & _);
  unfold dispatch;
  rewrite (bind_ok _ _ _ _ _ _ (state_run _ _ _ Hs));
  rewrite (bind_ok _ _ _ _ _ _ Hcall);
  unfold handle; rewrite (bind_ok _ _ _ _ _ _ (type_of_run _ _ _ Hself));
  rewrite Hcall; reflexivity.

Lemma dispatch_shutdown (args : Args) (dom : virDomain) (st : store) :
  handlers_wf st → dom_state dom = LvOk VIR_DOMAIN_SHUTDOWN →
  dispatch args dom st =
    (Ok 1, store_of (StateHandler_call VIR_DOMAIN_SHUTDOWN args st),
     [DomState; Log "ShutdownStateHandler" DEBUG "VIR_DOMAIN_SHUTDOWN" []]).
Proof. intros Hwf Hs. logging_tick args Hwf Hs registry_shutdown. Qed.

Lemma dispatch_shutoff (args : Args) (dom : virDomain) (st : store) :
  handlers_wf st → dom_state dom = LvOk VIR_DOMAIN_SHUTOFF →
  dispatch args dom st =
    (Ok 1, store_of (StateHandler_call VIR_DOMAIN_SHUTOFF args st),
     [DomState; Log "ShutoffStateHandler" DEBUG "VIR_DOMAIN_SHUTOFF" []]).
Proof. intros Hwf Hs. logging_tick args Hwf Hs registry_shutoff. Qed.

Lemma dispatch_stopping (args : Args) (dom : virDomain) (st : store) :
  handlers_wf st → reports stopping_state dom →
  result_of (dispatch args dom st) = Ok 1.
Proof.
  intros Hwf (s & Hs & [ -> | -> ]).
  - by rewrite dispatch_shutdown.
  - by rewrite dispatch_shutoff.
Qed.

Lemma dispatch_running_store (args : Args) (dom : virDomain) (st : store) :
  handlers_wf st → dom_state dom = LvOk VIR_DOMAIN_RUNNING →
  handlers_wf (store_of (StateHandler_call VIR_DOMAIN_RUNNING args st)) ∧
  dispatch args dom st =
    (Ok 0, store_of (StateHandler_call VIR_DOMAIN_RUNNING args st),
     DomState :: DomMemoryStats ::
     match dom_memoryStats dom with
     | LvOk raw => resize_events args dom raw
     | LvError _ => [resize_failed]
     end).
Proof.
  intros Hwf Hs.
  pose proof (dispatch_store args dom _ st Hwf Hs) as Hstore.
  destruct (dispatch_running args dom st Hwf Hs) as (st' & Hwf' & Hd).
  rewrite Hd in Hstore. cbn [store_of fst snd] in Hstore. subst st'.
  by split.
Qed.

(** ** C6 *)

(** C6.  The handlers bound to ShuttingDown and ShutOff log one debug
    record and return 1 (stop); those bound to Running, Paused and
    PmSuspended return 0 (continue).  The loop follows the signal of the
    iteration it has just run: on a non-zero signal it returns 0 at once,
    with the store and the events of that iteration and nothing after them —
    no sleep, no further iteration —; on signal 0 it sleeps [period] seconds
    and goes on with the next iteration.  So the process that polled a domain
    through continuing iterations and then saw it shutting down or shut off
    has run each of those iterations with a sleep after it, has run the
    stopping iteration last, closes the connection, returns 0 from [main] and
    exits with status 0. *)
Theorem terminal_states_stop_the_loop (args : Args) (st : store) :
  handlers_wf st →
  (∀ dom, dom_state dom = LvOk VIR_DOMAIN_SHUTDOWN →
     dispatch args dom st =
       (Ok 1, store_of (StateHandler_call VIR_DOMAIN_SHUTDOWN args st),
        [DomState; Log "ShutdownStateHandler" DEBUG "VIR_DOMAIN_SHUTDOWN" []])) ∧
  (∀ dom, dom_state dom = LvOk VIR_DOMAIN_SHUTOFF →
     dispatch args dom st =
       (Ok 1, store_of (StateHandler_call VIR_DOMAIN_SHUTOFF args st),
        [DomState; Log "ShutoffStateHandler" DEBUG "VIR_DOMAIN_SHUTOFF" []])) ∧
  (∀ dom, reports running_paused_or_suspended dom →
     result_of (dispatch args dom st) = Ok 0) ∧
  (∀ dom ticks r, result_of (dispatch args dom st) = Ok r → r ≠ 0 →
     main_loop args (dom :: ticks) st =
       (Ok (Some 0), store_of (dispatch args dom st),
        events_of (dispatch args dom st))) ∧
  (∀ dom ticks, result_of (dispatch args dom st) = Ok 0 →
     main_loop args (dom :: ticks) st =
       (result_of (main_loop args ticks (store_of (dispatch args dom st))),
        store_of (main_loop args ticks (store_of (dispatch args dom st))),
        events_of (dispatch args dom st) ++
        Sleep (period args) ::
        events_of (main_loop args ticks (store_of (dispatch args dom st))))) ∧
  (∀ hv before dom after,
     period args ≠ 0 → setup_succeeds hv →
     hv_ticks hv = before ++ dom :: after →
     Forall (reports continuing_state) before → reports stopping_state dom →
     ∃ (st' : store) (evs : list event),
       main_loop args before init_store = (Ok None, st', evs) ∧
       sleeps evs = replicate (length before) (period args) ∧
       result_of (dispatch args dom st') = Ok 1 ∧
       main args hv init_store =
         (Ok (Some 0), store_of (dispatch args dom st'),
          LibvirtOpen (connect args) :: LookupByName (vmname args) ::
          SetMemoryStatsPeriod (period args) ::
          evs ++ events_of (dispatch args dom st') ++ [ConnectionClose]) ∧
       exit_status args hv = Some 0).
Proof.
  intros Hwf.
  assert (∀ st0 dom ticks r, result_of (dispatch args dom st0) = Ok r → r ≠ 0 →
            main_loop args (dom :: ticks) st0 =
              (Ok (Some 0), store_of (dispatch args dom st0),
               events_of (dispatch args dom st0))) as Hstop.
  { intros st0 dom ticks r Hres Hr.
    destruct (dispatch args dom st0) as [[res st'] evs] eqn:Hd.
    cbn in Hres. subst res. by apply main_loop_stop with r. }
  split; [intros dom Hs; by apply dispatch_shutdown|].
  split; [intros dom Hs; by apply dispatch_shutoff|].
  split; [|split; [intros dom ticks r; by apply Hstop|split]].
  - intros dom (s & Hs & Hst).
    assert (∃ c, _registry !! s = Some c ∧ signal_of c = 0) as (c & Hr & Hsig).
    { destruct Hst as [ -> | [ -> | -> ] ]; eexists; (split; reflexivity). }
    destruct (dispatch_registered args dom s c st Hwf Hs Hr)
      as (self & st' & _ & _ & -> & ->).
    by rewrite Hsig.
  - intros dom ticks Hres.
    destruct (dispatch args dom st) as [[res st'] evs] eqn:Hd.
    cbn in Hres. subst res. by apply main_loop_continue.
  - intros hv before dom after Hp Hsetup Hticks Hbefore Hdom.
    destruct (main_loop_prefix_run args before init_store wf_init Hbefore)
      as (st' & evs & Hwf' & Hsl & _ & Hrun).
    pose proof (dispatch_stopping args dom st' Hwf' Hdom) as Hone.
    exists st', evs.
    split; [|split; [done|split; [done|]]].
    { pose proof (Hrun []) as H0. rewrite !app_nil_r in H0. exact H0. }
    assert (main_loop args (hv_ticks hv) init_store =
            (Ok (Some 0), store_of (dispatch args dom st'),
             evs ++ events_of (dispatch args dom st'))) as Hloop.
    { rewrite Hticks, Hrun. by rewrite (Hstop st' dom after 1 Hone). }
    rewrite exit_status_of_loop, main_run by done. rewrite Hloop.
    cbn [result_of store_of events_of fst snd close_after].
    split; [|done]. by rewrite <- app_assoc.
Qed.

Lemma terminal_states_stop_the_loop_witness :
  dispatch sample_args (sample_in_state VIR_DOMAIN_SHUTOFF) init_store =
    (Ok 1, store_of (StateHandler_call VIR_DOMAIN_SHUTOFF sample_args init_store),
     [DomState; Log "ShutoffStateHandler" DEBUG "VIR_DOMAIN_SHUTOFF" []]) ∧
  result_of (dispatch sample_args (sample_in_state VIR_DOMAIN_PAUSED) init_store) = Ok 0 ∧
  ∃ (st' : store) (evs : list event),
    main_loop sample_args [sample_running; sample_in_state VIR_DOMAIN_PAUSED]
      init_store = (Ok None, st', evs) ∧
    sleeps evs = replicate 2%nat (period sample_args) ∧
    result_of (dispatch sample_args (sample_in_state VIR_DOMAIN_SHUTDOWN) st') = Ok 1 ∧
    main sample_args
      (sample_hypervisor
         [sample_running; sample_in_state VIR_DOMAIN_PAUSED;
          sample_in_state VIR_DOMAIN_SHUTDOWN; sample_running]) init_store =
      (Ok (Some 0),
       store_of (dispatch sample_args (sample_in_state VIR_DOMAIN_SHUTDOWN) st'),
       LibvirtOpen (connect sample_args) :: LookupByName (vmname sample_args) ::
       SetMemoryStatsPeriod (period sample_args) ::
       evs ++ events_of (dispatch sample_args (sample_in_state VIR_DOMAIN_SHUTDOWN) st')
           ++ [ConnectionClose]) ∧
    exit_status sample_args
      (sample_hypervisor
         [sample_running; sample_in_state VIR_DOMAIN_PAUSED;
          sample_in_state VIR_DOMAIN_SHUTDOWN; sample_running]) = Some 0.
Proof.
  destruct (terminal_states_stop_the_loop sample_args init_store wf_init)
    as (_ & H2 & H3 & _ & _ & H6).
  split; [|split].
  - apply H2. reflexivity.
  - apply H3. exists VIR_DOMAIN_PAUSED. split; [reflexivity|].
    right. left. reflexivity.
  - apply (H6 (sample_hypervisor
                 [sample_running; sample_in_state VIR_DOMAIN_PAUSED;
                  sample_in_state VIR_DOMAIN_SHUTDOWN; sample_running])
              [sample_running; sample_in_state VIR_DOMAIN_PAUSED]
              (sample_in_state VIR_DOMAIN_SHUTDOWN) [sample_running]).
    + discriminate.
    + repeat split.
    + reflexivity.
    + repeat constructor.
      * exists VIR_DOMAIN_RUNNING. split; [reflexivity|]. left. reflexivity.
      * exists VIR_DOMAIN_PAUSED. split; [reflexivity|].
        right. right. left. reflexivity.
    + exists VIR_DOMAIN_SHUTDOWN. split; [reflexivity|]. left. reflexivity.
Defined.

(** ** C7 *)

(** C7.  A [libvirtError] raised inside a Running iteration is caught by
    the handler.  When fetching the statistics raises it, the iteration
    consists of the state query, the failed fetch and one record at level
    ERROR, and no resize is requested.  When the resize request raises it,
    the iteration consists of the state query, the fetch, the debug and info
    records, that one request and one record at level ERROR: the request is
    not repeated and no other amount is asked for.  In both cases the
    iteration returns 0 and changes nothing in the store beyond what the
    constructor call did, and the loop sleeps [period] seconds and goes on
    with the next iteration. *)
Theorem running_libvirt_error_absorbed (args : Args) (dom : virDomain)
    (ticks : list virDomain) (st : store) :
  handlers_wf st →
  dom_state dom = LvOk VIR_DOMAIN_RUNNING →
  stats_fail dom ∨ resize_fails args dom →
  (∀ msg st0, dom_memoryStats dom = LvError msg →
     memoryStats dom st0 = (Raise (libvirtError msg), st0, [DomMemoryStats]) ∧
     dispatch args dom st =
       (Ok 0, store_of (StateHandler_call VIR_DOMAIN_RUNNING args st),
        [DomState; DomMemoryStats;
         Log "RunningStateHandler" ERROR "failed to resize memory" []]) ∧
     setMemory_calls (events_of (dispatch args dom st)) = []) ∧
  (∀ raw msg st0,
     dom_memoryStats dom = LvOk raw →
     let actual := MemoryStats.dict_get raw "actual" 0 in
     let usable := MemoryStats.dict_get raw "usable" 0 in
     let target := Z.max (actual - usable + free args) (min args) in
     let delta := actual - target in
     delta < - minThreshold args ∨ delta > maxThreshold args →
     dom_setMemory dom target = LvError msg →
     setMemory dom target st0 =
       (Raise (libvirtError msg), st0, [DomSetMemory target]) ∧
     dispatch args dom st =
       (Ok 0, store_of (StateHandler_call VIR_DOMAIN_RUNNING args st),
        [DomState; DomMemoryStats;
         Log "RunningStateHandler" DEBUG
             "actual = %.2fMB,\tusable = %.2fMB,\tdelta = %+.2fMB"
             [actual; usable; delta];
         Log "RunningStateHandler" INFO "memory resized to %.2f (%+.2fMB)"
             [target; delta];
         DomSetMemory target;
         Log "RunningStateHandler" ERROR "failed to resize memory" []]) ∧
     setMemory_calls (events_of (dispatch args dom st)) = [target]) ∧
  result_of (dispatch args dom st) = Ok 0 ∧
  logged_at ERROR (events_of (dispatch args dom st)) =
    [("RunningStateHandler", "failed to resize memory")] ∧
  handlers_wf (store_of (dispatch args dom st)) ∧
  main_loop args (dom :: ticks) st =
    (result_of (main_loop args ticks (store_of (dispatch args dom st))),
     store_of (main_loop args ticks (store_of (dispatch args dom st))),
     events_of (dispatch args dom st) ++
     Sleep (period args) ::
     events_of (main_loop args ticks (store_of (dispatch args dom st)))).
Proof.
  intros Hwf Hs Hfail.
  destruct (dispatch_running_store args dom st Hwf Hs) as (Hwf' & Hd).
  split; [|split; [|split; [|split; [|split]]]].
  - intros msg st0 Hstats. rewrite Hd, Hstats.
    split; [|by split].
    unfold memoryStats, libvirt_call. by rewrite Hstats.
  - intros raw msg st0 Hstats actual usable target delta Hgate Hset.
    rewrite Hd, Hstats. unfold resize_events.
    fold actual usable. change (Spec.target actual usable args) with target.
    change (Spec.delta actual usable args) with delta.
    rewrite bool_decide_eq_true_2 by exact Hgate. rewrite Hset.
    split; [|by split].
    unfold setMemory, libvirt_call. by rewrite Hset.
  - by rewrite Hd.
  - rewrite Hd. destruct Hfail as [[msg ->]|(raw & msg & -> & Hgate & Hset)].
    + reflexivity.
    + cbn in Hgate, Hset. unfold resize_events.
      rewrite bool_decide_eq_true_2 by done. by rewrite Hset.
  - by rewrite Hd.
  - rewrite (main_loop_continue _ _ ticks _ _ _ Hd). by rewrite Hd.
Qed.

Lemma running_libvirt_error_absorbed_witness :
  dispatch sample_args sample_stats_down init_store =
    (Ok 0, store_of (StateHandler_call VIR_DOMAIN_RUNNING sample_args init_store),
     [DomState; DomMemoryStats;
      Log "RunningStateHandler" ERROR "failed to resize memory" []]) ∧
  dispatch sample_args sample_resize_refused init_store =
    (Ok 0, store_of (StateHandler_call VIR_DOMAIN_RUNNING sample_args init_store),
     [DomState; DomMemoryStats;
      Log "RunningStateHandler" DEBUG
          "actual = %.2fMB,\tusable = %.2fMB,\tdelta = %+.2fMB"
          [MB 4096; MB 3000; MB 1976];
      Log "RunningStateHandler" INFO "memory resized to %.2f (%+.2fMB)"
          [MB 2120; MB 1976];
      DomSetMemory (MB 2120);
      Log "RunningStateHandler" ERROR "failed to resize memory" []]) ∧
  setMemory_calls (events_of (dispatch sample_args sample_resize_refused init_store)) =
    [MB 2120].
Proof.
  destruct (running_libvirt_error_absorbed sample_args sample_stats_down []
              init_store wf_init eq_refl
              (or_introl (ex_intro _ "no balloon" eq_refl)))
    as (H1 & _).
  destruct (running_libvirt_error_absorbed sample_args sample_resize_refused []
              init_store wf_init eq_refl) as (_ & H2 & _).
  { right. exists (<["actual" := MB 4096]> (<["usable" := MB 3000]> ∅)).
    exists "cannot set memory".
    split; [reflexivity|]. split; [|reflexivity].
    right. vm_compute. reflexivity. }
  destruct (H1 "no balloon" init_store eq_refl) as (_ & H1' & _).
  destruct (H2 (<["actual" := MB 4096]> (<["usable" := MB 3000]> ∅))
               "cannot set memory" init_store eq_refl) as (_ & H2' & H2'').
  { right. vm_compute. reflexivity. }
  { reflexivity. }
  exact (conj H1' (conj H2' H2'')).
Defined.
